(** * A vision chat: the proxy route and the chat component

    A shallow embedding of

    - [src/app/api/assistants/vision/route.ts]: the [POST] handler that
      validates an image/question pair, forwards it to the completion API and
      normalises the answer or the error (module [Proxy]);
    - [src/app/components/chat.tsx]: the [Chat] component, its two event
      handlers and the callbacks they register (module [Chat]).

    JavaScript strings are modelled as [string], a sequence of code units
    below 256.  Every handler is written in a small monad that threads what
    the source threads: a log of effects and a thrown value on the server, the
    React state on top of that in the client. *)

From Stdlib Require Import String Ascii List ZArith Lia Bool.
Import ListNotations.
Open Scope string_scope.

(** ** The JavaScript operations the two files use *)

Module Js.

(** A value that was thrown: [error instanceof Error] holds for [JsError]
    only, and [message] is [error.message]. *)
Inductive Thrown : Type :=
| JsError (message : string)
| NonError.

(** [!!s] for a string. *)
Definition truthy (s : string) : bool :=
  match s with
  | EmptyString => false
  | String _ _ => true
  end.

(** [!!v] for a value that is a string, [undefined] or [null]. *)
Definition truthy_opt (v : option string) : bool :=
  match v with
  | Some s => truthy s
  | None => false
  end.

(** [s || d] for strings. *)
Definition or_else (s d : string) : string :=
  if truthy s then s else d.

(** [v || d] when [v] may be [undefined]. *)
Definition or_else_opt (v : option string) (d : string) : string :=
  match v with
  | Some s => or_else s d
  | None => d
  end.

(** [hay.includes(needle)]. *)
Fixpoint includes (hay needle : string) : bool :=
  prefix needle hay
  || match hay with
     | EmptyString => false
     | String _ rest => includes rest needle
     end.

(** [array.includes(x)] on an array of strings (strict equality). *)
Definition array_includes (l : list string) (x : string) : bool :=
  existsb (String.eqb x) l.

(** White space as [String.prototype.trim] sees it, among the code units
    below 256: TAB, LF, VT, FF, CR, SP and NBSP. *)
Definition is_space (c : ascii) : bool :=
  let n := nat_of_ascii c in
  ((9 <=? n) && (n <=? 13) || (n =? 32) || (n =? 160))%nat.

Fixpoint trimStart (s : string) : string :=
  match s with
  | EmptyString => EmptyString
  | String c rest => if is_space c then trimStart rest else s
  end.

Fixpoint trimEnd (s : string) : string :=
  match s with
  | EmptyString => EmptyString
  | String c rest =>
      match trimEnd rest with
      | EmptyString => if is_space c then EmptyString else String c EmptyString
      | kept => String c kept
      end
  end.

(** [s.trim()]. *)
Definition trim (s : string) : string := trimEnd (trimStart s).

(** [s.split(sep)] for a separator of one code unit. *)
Fixpoint split (sep : ascii) (s : string) : list string :=
  match s with
  | EmptyString => [EmptyString]
  | String c rest =>
      if Ascii.eqb c sep then EmptyString :: split sep rest
      else match split sep rest with
           | piece :: pieces => String c piece :: pieces
           | [] => [String c EmptyString]
           end
  end.

End Js.

(** ** The wire payloads exchanged by the component and the route *)

Module Wire.

(** The parsed JSON body of the request.  A field is [None] when the body
    has no such key (or has [null] there); field values that are not strings
    are outside this model. *)
Record VisionRequest : Type := {
  imageBase64 : option string;
  question : option string
}.

(** The JSON body of an answer, as the client reads it: [data.result] and
    [errorData.error], each possibly [undefined]. *)
Record VisionResponse : Type := {
  result : option string;
  error : option string
}.

End Wire.

(** ** The proxy route, [route.ts] *)

Module Proxy.
Import Js Wire.

(** The argument of [openai.chat.completions.create]. *)
Inductive ContentPart : Type :=
| TextPart (text : option string)
| ImageUrlPart (url : string) (detail : string).

Record MessageParam : Type := {
  role : string;
  content : list ContentPart
}.

Record CreateParams : Type := {
  model : string;
  messages : list MessageParam;
  max_tokens : Z
}.

(** What the completion API resolves to. *)
Module Completion.

Record Message : Type := { content : option string }.

Record Choice : Type := { message : Message }.

Record t : Type := { choices : list Choice }.

End Completion.

(** The incoming request: reading the body, [await req.json()] and the
    destructuring of its value, either throws or yields the two fields. *)
Record Request : Type := { json : Thrown + VisionRequest }.

(** [NextResponse.json(body, { status })]; the status is 200 when no
    option is given. *)
Record NextResponse : Type := {
  status : Z;
  body : VisionResponse
}.

Definition json_result (r : string) : NextResponse :=
  {| status := 200; body := {| result := Some r; error := None |} |}.

Definition json_error (msg : string) (code : Z) : NextResponse :=
  {| status := code; body := {| result := None; error := Some msg |} |}.

(** What a run of the handler does besides answering. *)
Inductive Effect : Type :=
| UpstreamCall (params : CreateParams)
| ConsoleError (label : string) (thrown : Thrown).

(** The handler monad: the effects so far, and a value or what was thrown. *)
Definition H (A : Type) : Type := list Effect * (Thrown + A).

Definition ret {A} (a : A) : H A := ([], inr a).

Definition throw {A} (e : Thrown) : H A := ([], inl e).

Definition bind {A B} (m : H A) (k : A -> H B) : H B :=
  match m with
  | (log, inl e) => (log, inl e)
  | (log, inr a) => let (log', r) := k a in ((log ++ log')%list, r)
  end.

Definition lift {A} (r : Thrown + A) : H A := ([], r).

Definition tell (eff : Effect) : H unit := ([eff], inr tt).

(** [try { m } catch (error) { handler }] where the handler always answers. *)
Definition try_catch {A} (m : H A) (handler : Thrown -> list Effect * A)
  : list Effect * A :=
  match m with
  | (log, inr a) => (log, a)
  | (log, inl e) => let (log', a) := handler e in ((log ++ log')%list, a)
  end.

Declare Scope handler_scope.
Delimit Scope handler_scope with handler.
Notation "x <- m ;; k" := (bind m (fun x => k))
  (at level 61, m at next level, right associativity) : handler_scope.
Notation "m ;; k" := (bind m (fun _ => k))
  (at level 61, right associativity) : handler_scope.

(** [completion.choices[0].message.content]: reading [message] of
    [undefined] throws a [TypeError] (the text is V8's). *)
Definition first_choice_content (completion : Completion.t)
  : Thrown + option string :=
  match Completion.choices completion with
  | [] => inl (JsError "Cannot read properties of undefined (reading 'message')")
  | choice :: _ => inr (Completion.content (Completion.message choice))
  end.

(** The request of lines 30-51. *)
Definition create_params (imageBase64 : string) (question : option string)
  : CreateParams :=
  {| model := "gpt-4o-mini";
     messages :=
       [ {| role := "user";
            content :=
              [ TextPart question;
                ImageUrlPart ("data:image/jpeg;base64," ++ imageBase64) "auto" ]
         |} ];
     max_tokens := 300 |}.

(** The [catch] block, lines 61-94. *)
Definition on_error (error : Thrown) : list Effect * NextResponse :=
  ( [ConsoleError "Error in vision analysis:" error],
    match error with
    | JsError message =>
        if includes message "maximum context length" then
          json_error "Image is too large or complex to process" 400
        else if includes message "invalid_api_key" then
          json_error "Invalid API key" 401
        else if includes message "rate_limit_exceeded" then
          json_error "Rate limit exceeded" 429
        else json_error message 500
    | NonError => json_error "Failed to analyze the image" 500
    end ).

Section Platform.

(** [Buffer.from(s, 'base64').length], Node's decoder, and the behaviour of
    the completion API for each call: both belong to the platform, not to
    this repository. *)
Variable base64_length : string -> Z.
Variable create : CreateParams -> Thrown + Completion.t.

Definition openai_create (params : CreateParams) : H Completion.t :=
  (tell (UpstreamCall params) ;; lift (create params))%handler.

(** The [try] block, lines 12-60. *)
Definition POST_try (req : Request) : H NextResponse :=
  (b <- lift (json req) ;;
   match imageBase64 b with
   | Some image =>
       if negb (truthy image) then
         ret (json_error "Image data not provided" 400)
       else
         let sizeInBytes := base64_length image in
         if (sizeInBytes >? 20 * 1024 * 1024)%Z then
           ret (json_error "Image size exceeds 20MB limit" 400)
         else
           completion <- openai_create (create_params image (question b)) ;;
           result <- lift (first_choice_content completion) ;;
           match result with
           | Some text =>
               if negb (truthy text) then
                 throw (JsError "No response content from OpenAI")
               else ret (json_result text)
           | None => throw (JsError "No response content from OpenAI")
           end
   | None => ret (json_error "Image data not provided" 400)
   end)%handler.

Definition POST (req : Request) : list Effect * NextResponse :=
  try_catch (POST_try req) on_error.

End Platform.

(** The answer, and the calls made to the completion API, of a run. *)
Definition response (run : list Effect * NextResponse) : NextResponse := snd run.

Definition upstream_calls (run : list Effect * NextResponse) : list CreateParams :=
  flat_map (fun eff => match eff with
                       | UpstreamCall p => [p]
                       | ConsoleError _ _ => []
                       end) (fst run).

(** A reference reading of Node's lenient base64 decoder, for running the
    handler on concrete bodies: the data characters before the first [=]
    count, anything else is skipped, and four characters make three bytes. *)
Definition is_base64_char (c : ascii) : bool :=
  let n := nat_of_ascii c in
  ((65 <=? n) && (n <=? 90) || (97 <=? n) && (n <=? 122)
   || (48 <=? n) && (n <=? 57)
   || (n =? 43) || (n =? 47) || (n =? 45) || (n =? 95))%nat.

Fixpoint base64_data_chars (s : string) : nat :=
  match s with
  | EmptyString => 0
  | String c rest =>
      if Ascii.eqb c "="%char then 0
      else (if is_base64_char c then 1 else 0) + base64_data_chars rest
  end%nat.

Definition node_base64_length (s : string) : Z :=
  Z.shiftr (3 * Z.of_nat (base64_data_chars s)) 2.

End Proxy.

(** ** The chat component, [chat.tsx] *)

Module Chat.
Import Js Wire.

Inductive Role : Type := user | assistant.

(** [MessageProps].  [text] is declared a string, but the assistant's text is
    [data.result] of an untyped JSON value, so it may be [undefined];
    [imageUrl] is optional in the source as well. *)
Record MessageProps : Type := {
  role : Role;
  text : option string;
  imageUrl : option string
}.

(** What the handlers read of a [File]. *)
Record File : Type := {
  name : string;
  size : Z;
  type : string
}.

(** The six [useState] cells of [Chat].  [imagePreview] holds
    [reader.result], which is [null] ([None]) after a failed read. *)
Record State : Type := {
  userInput : string;
  messages : list MessageProps;
  isLoading : bool;
  selectedImage : option File;
  imagePreview : option string;
  error : string
}.

Definition initial : State :=
  {| userInput := ""; messages := []; isLoading := false;
     selectedImage := None; imagePreview := Some ""; error := "" |}.

(** The answer of [fetch]: the status, and what [response.json()] gives. *)
Record Response : Type := {
  status : Z;
  json : Thrown + VisionResponse
}.

(** [response.ok]. *)
Definition ok (r : Response) : bool :=
  ((200 <=? status r) && (status r <=? 299))%Z.

(** The two [FileReader]s: the one of [handleImageSelect], and the one of
    [handleSubmit], whose callbacks close over the state of the render that
    created them. *)
Inductive Reader : Type :=
| PreviewReader
| SubmitReader (render : State).

Inductive Effect : Type :=
| PreventDefault
| ReadAsDataURL (file : File) (reader : Reader)
| Fetch (url : string) (body : VisionRequest)
| ConsoleError (label : string) (thrown : Thrown)
| ScrollToBottom.

(** The monad of handlers and callbacks: the current state is threaded, the
    effects are logged, and a computation ends in a value or in a throw. *)
Definition M (A : Type) : Type := State -> State * list Effect * (Thrown + A).

Definition ret {A} (a : A) : M A := fun st => (st, [], inr a).

Definition throw {A} (e : Thrown) : M A := fun st => (st, [], inl e).

Definition bind {A B} (m : M A) (k : A -> M B) : M B := fun st =>
  match m st with
  | (st', log, inl e) => (st', log, inl e)
  | (st', log, inr a) =>
      let '(st'', log', r) := k a st' in (st'', (log ++ log')%list, r)
  end.

Definition lift {A} (r : Thrown + A) : M A := fun st => (st, [], r).

Definition perform (eff : Effect) : M unit := fun st => (st, [eff], inr tt).

Definition update (f : State -> State) : M unit := fun st => (f st, [], inr tt).

Definition try_catch {A} (m : M A) (handler : Thrown -> M A) : M A := fun st =>
  match m st with
  | (st', log, inl e) =>
      let '(st'', log', r) := handler e st' in (st'', (log ++ log')%list, r)
  | done => done
  end.

Definition try_finally {A} (m : M A) (finalizer : M unit) : M A := fun st =>
  let '(st', log, r) := m st in
  match finalizer st' with
  | (st'', log', inr _) => (st'', (log ++ log')%list, r)
  | (st'', log', inl e) => (st'', (log ++ log')%list, inl e)
  end.

Declare Scope chat_scope.
Delimit Scope chat_scope with chat.
Notation "x <- m ;; k" := (bind m (fun x => k))
  (at level 61, m at next level, right associativity) : chat_scope.
Notation "m ;; k" := (bind m (fun _ => k))
  (at level 61, right associativity) : chat_scope.

(** The state setters. *)
Definition setUserInput (v : string) : M unit :=
  update (fun st =>
    {| userInput := v; messages := messages st; isLoading := isLoading st;
       selectedImage := selectedImage st; imagePreview := imagePreview st;
       error := error st |}).

Definition setMessages (f : list MessageProps -> list MessageProps) : M unit :=
  update (fun st =>
    {| userInput := userInput st; messages := f (messages st);
       isLoading := isLoading st; selectedImage := selectedImage st;
       imagePreview := imagePreview st; error := error st |}).

Definition setIsLoading (v : bool) : M unit :=
  update (fun st =>
    {| userInput := userInput st; messages := messages st; isLoading := v;
       selectedImage := selectedImage st; imagePreview := imagePreview st;
       error := error st |}).

Definition setSelectedImage (v : option File) : M unit :=
  update (fun st =>
    {| userInput := userInput st; messages := messages st;
       isLoading := isLoading st; selectedImage := v;
       imagePreview := imagePreview st; error := error st |}).

Definition setImagePreview (v : option string) : M unit :=
  update (fun st =>
    {| userInput := userInput st; messages := messages st;
       isLoading := isLoading st; selectedImage := selectedImage st;
       imagePreview := v; error := error st |}).

Definition setError (v : string) : M unit :=
  update (fun st =>
    {| userInput := userInput st; messages := messages st;
       isLoading := isLoading st; selectedImage := selectedImage st;
       imagePreview := imagePreview st; error := v |}).

Definition is_some {A} (o : option A) : bool :=
  match o with
  | Some _ => true
  | None => false
  end.

(** [handleImageSelect], lines 66-91; [file] is [e.target.files?.[0]]. *)
Definition handleImageSelect (file : option File) : M unit :=
  match file with
  | Some file =>
      if (size file >? 20 * 1024 * 1024)%Z then
        setError "Image size must be less than 20MB"
      else if negb (array_includes
                      ["image/jpeg"; "image/png"; "image/webp"; "image/gif"]
                      (type file)) then
        setError "Only JPEG, PNG, WEBP, and non-animated GIF files are supported"
      else
        (setSelectedImage (Some file) ;;
         setError "" ;;
         perform (ReadAsDataURL file PreviewReader))%chat
  | None => ret tt
  end.

(** The [onloadend] of the preview reader, lines 86-88. *)
Definition preview_onloadend (result : option string) : M unit :=
  setImagePreview result.

(** [handleSubmit], lines 93-167.  [render] is the state the handler closes
    over.  The body has no [await]: it runs to its end, [finally] included,
    and only registers the reader's callbacks. *)
Definition handleSubmit (render : State) : M unit :=
  (perform PreventDefault ;;
   if negb (truthy (trim (userInput render)))
      && negb (is_some (selectedImage render)) then ret tt
   else
     setIsLoading true ;;
     setError "" ;;
     try_finally
       (try_catch
          ((match selectedImage render with
            | Some file => perform (ReadAsDataURL file (SubmitReader render))
            | None => ret tt
            end) ;;
           (if truthy (trim (userInput render)) then
              setMessages (fun prev =>
                (prev ++ [ {| role := user;
                              text := Some (userInput render);
                              imageUrl := None |} ])%list)
            else ret tt) ;;
           setUserInput "")
          (fun thrown =>
             setError (match thrown with
                       | JsError message => message
                       | NonError => "An error occurred"
                       end) ;;
             perform (ConsoleError "Error:" thrown)))
       (setIsLoading false ;;
        perform ScrollToBottom))%chat.

(** The [onloadend] of the submit reader up to its [await fetch], lines
    105-128; [result] is [reader.result].  The value is the body sent. *)
Definition submit_onloadend (render : State) (result : option string)
  : M VisionRequest :=
  let base64Image :=
    match result with
    | Some dataUrl => nth_error (split ","%char dataUrl) 1
    | None => None
    end in
  (if negb (truthy_opt base64Image) then
     throw (JsError "Failed to process image")
   else
     setMessages (fun prev =>
       (prev ++ [ {| role := user;
                     text := Some (or_else (userInput render)
                                           "What is in this image?");
                     imageUrl := imagePreview render |} ])%list) ;;
     let body :=
       {| imageBase64 := base64Image;
          question := Some (or_else (userInput render)
                                    "What is in this image?") |} in
     perform (Fetch "/api/assistants/vision" body) ;;
     ret body)%chat.

(** The same callback once [fetch] has resolved, lines 130-144. *)
Definition submit_onresponse (response : Response) : M unit :=
  (if negb (ok response) then
     errorData <- lift (json response) ;;
     throw (JsError (or_else_opt (Wire.error errorData)
                                 "Failed to analyze image"))
   else
     data <- lift (json response) ;;
     setMessages (fun prev =>
       (prev ++ [ {| role := assistant;
                     text := result data;
                     imageUrl := None |} ])%list) ;;
     setSelectedImage None ;;
     setImagePreview (Some ""))%chat.

(** The [onerror] of the submit reader, lines 147-149. *)
Definition submit_onerror : M unit :=
  throw (JsError "Failed to read image file").

(** The handlers written inline in the JSX, lines 190 and 209-212. *)
Definition onInputChange (value : string) : M unit := setUserInput value.

Definition onClearClick : M unit :=
  (setSelectedImage None ;; setImagePreview (Some ""))%chat.

(** What the render shows of the state, lines 175-224. *)
Definition error_area (st : State) : option string :=
  if truthy (error st) then Some (error st) else None.

Definition inputs_disabled (st : State) : bool := isLoading st.

Definition submit_disabled (st : State) : bool :=
  isLoading st
  || negb (truthy (trim (userInput st))) && negb (is_some (selectedImage st)).

(** Projections of a run. *)
Definition state_of {A} (run : State * list Effect * (Thrown + A)) : State :=
  fst (fst run).

Definition effects_of {A} (run : State * list Effect * (Thrown + A))
  : list Effect := snd (fst run).

Definition outcome_of {A} (run : State * list Effect * (Thrown + A))
  : Thrown + A := snd run.

(** *** The component in the browser's event loop

    Between two events the render is up to date, so a handler closes over
    the current state.  Reads and requests that were started and have not
    ended yet are kept; a throw that nothing catches is recorded and changes
    no state. *)
Record World : Type := {
  ui : State;
  reads : list (File * Reader);
  in_flight : list VisionRequest;
  unhandled : list Thrown
}.

Definition started_reads (log : list Effect) : list (File * Reader) :=
  flat_map (fun eff => match eff with
                       | ReadAsDataURL file reader => [(file, reader)]
                       | _ => []
                       end) log.

Definition started_requests (log : list Effect) : list VisionRequest :=
  flat_map (fun eff => match eff with
                       | Fetch _ body => [body]
                       | _ => []
                       end) log.

Definition settle {A} (w : World) (run : State * list Effect * (Thrown + A))
  : World :=
  {| ui := state_of run;
     reads := (reads w ++ started_reads (effects_of run))%list;
     in_flight := (in_flight w ++ started_requests (effects_of run))%list;
     unhandled := (unhandled w ++ match outcome_of run with
                                  | inl thrown => [thrown]
                                  | inr _ => []
                                  end)%list |}.

Definition remove_nth {A} (i : nat) (l : list A) : list A :=
  (firstn i l ++ skipn (S i) l)%list.

Definition end_read (i : nat) (w : World) : World :=
  {| ui := ui w; reads := remove_nth i (reads w);
     in_flight := in_flight w; unhandled := unhandled w |}.

Definition end_request (i : nat) (w : World) : World :=
  {| ui := ui w; reads := reads w;
     in_flight := remove_nth i (in_flight w); unhandled := unhandled w |}.

Inductive Event : Type :=
| SelectFile (file : option File)
| TypeText (value : string)
| ClickClear
| SubmitForm
| ReadEnds (i : nat) (result : option string)
| FetchResolves (i : nat) (response : Response).

(** One turn of the event loop.  A disabled control fires nothing; a read
    that failed ([result] is [None]) fires [error] and then [loadend]. *)
Definition step (w : World) (ev : Event) : World :=
  match ev with
  | SelectFile file =>
      if inputs_disabled (ui w) then w
      else settle w (handleImageSelect file (ui w))
  | TypeText value =>
      if inputs_disabled (ui w) then w
      else settle w (onInputChange value (ui w))
  | ClickClear =>
      if truthy_opt (imagePreview (ui w)) then settle w (onClearClick (ui w))
      else w
  | SubmitForm =>
      if submit_disabled (ui w) then w
      else settle w (handleSubmit (ui w) (ui w))
  | ReadEnds i result =>
      match nth_error (reads w) i with
      | Some (_, PreviewReader) =>
          settle (end_read i w) (preview_onloadend result (ui w))
      | Some (_, SubmitReader render) =>
          let w1 := match result with
                    | None => settle (end_read i w) (submit_onerror (ui w))
                    | Some _ => end_read i w
                    end in
          settle w1 (submit_onloadend render result (ui w1))
      | None => w
      end
  | FetchResolves i response =>
      match nth_error (in_flight w) i with
      | Some _ => settle (end_request i w) (submit_onresponse response (ui w))
      | None => w
      end
  end.

Definition run (w : World) (events : list Event) : World :=
  fold_left step events w.

Definition start : World :=
  {| ui := initial; reads := []; in_flight := []; unhandled := [] |}.

End Chat.

(** ** The two ends together *)

Module System.
Import Js Wire.

(** What [fetch] hands the component for an answer of the route: the body
    of a [NextResponse] is JSON, so [response.json()] resolves. *)
Definition deliver (answer : Proxy.NextResponse) : Chat.Response :=
  {| Chat.status := Proxy.status answer;
     Chat.json := inr (Proxy.body answer) |}.

(** [readAsDataURL] gives [data:<type>;base64,<payload>]. *)
Definition data_url (mime payload : string) : string :=
  "data:" ++ mime ++ ";base64," ++ payload.

(** [s.repeat(n)], to write long payloads down. *)
Fixpoint repeat_string (s : string) (n : nat) : string :=
  match n with
  | O => EmptyString
  | S m => s ++ repeat_string s m
  end.

(** [needle] occurs in [hay]. *)
Definition contains (hay needle : string) : Prop :=
  exists before after, hay = before ++ needle ++ after.

(** [c] does not occur in [s]. *)
Definition free_of (c : ascii) (s : string) : Prop :=
  ~ In c (list_ascii_of_string s).

End System.

(** ** Concrete data to run the model on *)

Module Sample.
Import Js Wire System.

Definition png : Chat.File :=
  {| Chat.name := "cat.png"; Chat.size := 3; Chat.type := "image/png" |}.

Definition png_url : string := data_url "image/png" "AAAA".

Definition request : Proxy.Request :=
  {| Proxy.json := inr {| imageBase64 := Some "AAAA";
                          question := Some "What is in this image?" |} |}.

(** A completion API that answers every call with one choice. *)
Definition answering (content : option string)
  : Proxy.CreateParams -> Thrown + Proxy.Completion.t :=
  fun _ => inr {| Proxy.Completion.choices :=
                    [ {| Proxy.Completion.message :=
                           {| Proxy.Completion.content := content |} |} ] |}.

(** A completion API that rejects every call. *)
Definition rejecting (thrown : Thrown)
  : Proxy.CreateParams -> Thrown + Proxy.Completion.t :=
  fun _ => inl thrown.

(** 28 000 000 data characters, 21 000 000 bytes once decoded. *)
Definition long_payload : string :=
  repeat_string "AAAA" (N.to_nat 7000000).

Definition success : Chat.Response :=
  {| Chat.status := 200;
     Chat.json := inr {| result := Some "A cat"; error := None |} |}.

Definition too_large : Chat.Response :=
  {| Chat.status := 400;
     Chat.json := inr {| result := None;
                         error := Some "Image size exceeds 20MB limit" |} |}.

(** Sessions of the component, from the first render on. *)
Definition attach : list Chat.Event :=
  [ Chat.SelectFile (Some png); Chat.ReadEnds 0 (Some png_url) ].

Definition submit_and_read : list Chat.Event :=
  [ Chat.SubmitForm; Chat.ReadEnds 0 (Some png_url) ].

(** The state once the image is attached and a question is typed. *)
Definition asking : Chat.State :=
  {| Chat.userInput := "What is this?"; Chat.messages := [];
     Chat.isLoading := false; Chat.selectedImage := Some png;
     Chat.imagePreview := Some png_url; Chat.error := "" |}.

Definition whitespace_session : list Chat.Event :=
  (attach ++ [Chat.TypeText " "] ++ submit_and_read)%list.

Definition refused_session : list Chat.Event :=
  (attach ++ [Chat.TypeText "What is this?"] ++ submit_and_read
   ++ [Chat.FetchResolves 0 too_large])%list.

Definition unreadable_session : list Chat.Event :=
  (attach ++ [Chat.SubmitForm; Chat.ReadEnds 0 None])%list.

Definition double_submit_session : list Chat.Event :=
  (attach ++ submit_and_read ++ submit_and_read)%list.

(** An image file of no byte: its data URL has nothing after the comma. *)
Definition empty_png : Chat.File :=
  {| Chat.name := "empty.png"; Chat.size := 0; Chat.type := "image/png" |}.

Definition empty_png_url : string := data_url "image/png" "".

Definition attach_empty_and_ask : list Chat.Event :=
  [ Chat.SelectFile (Some empty_png); Chat.ReadEnds 0 (Some empty_png_url);
    Chat.TypeText "What is this?" ].

Definition empty_file_session : list Chat.Event :=
  (attach_empty_and_ask
   ++ [Chat.SubmitForm; Chat.ReadEnds 0 (Some empty_png_url)])%list.

Definition failed_read_session : list Chat.Event :=
  (attach ++ [Chat.TypeText "What is this?"]
   ++ [Chat.SubmitForm; Chat.ReadEnds 0 None])%list.

End Sample.

(** ** What the page shows *)

Module View.
Import Js Wire Chat.

(** The elements the components return, as far as the source fixes them:
    the tag, the class and the source of an image, and the children. *)
#[warnings="-register-all"]
Inductive Element : Type :=
| Div (className : string) (children : list Element)
| Img (src : string) (alt : string) (className : string)
| Text (value : option string)
| Markdown (value : option string).

(** [UserMessage], lines 13-27: [imageUrl && <img ... />], then the text.
    An [imageUrl] that is [undefined] or empty renders no element. *)
Definition UserMessage (text imageUrl : option string) : Element :=
  Div "userMessage"
      (match imageUrl with
       | Some url =>
           if truthy url then [Img url "Uploaded content" "uploadedImage"]
           else []
       | None => []
       end ++ [Text text])%list.

(** [AssistantMessage], lines 29-35. *)
Definition AssistantMessage (text : option string) : Element :=
  Div "assistantMessage" [Markdown text].

(** [Message], lines 37-46; the [default] branch has no role left. *)
Definition Message (props : MessageProps) : Element :=
  match role props with
  | user => UserMessage (text props) (imageUrl props)
  | assistant => AssistantMessage (text props)
  end.

(** The transcript, lines 172-174. *)
Definition transcript (st : State) : list Element :=
  map Message (messages st).

(** The label of the submit button, line 223. *)
Definition submit_label (st : State) : string :=
  if isLoading st then "Processing..." else "Send".

(** The preview block, lines 200-217, is rendered for a truthy preview. *)
Definition preview_shown (st : State) : bool :=
  truthy_opt (imagePreview st).

End View.

(** ** The runs of the route, case by case *)

Module Outcome.
Import Js Wire Proxy.

(** What reading the content of a completion throws, lines 54-58. *)
Inductive Unusable (completion : Completion.t) : Thrown -> Prop :=
| NoChoice :
    Completion.choices completion = [] ->
    Unusable completion
      (JsError "Cannot read properties of undefined (reading 'message')")
| NoContent choice rest :
    Completion.choices completion = choice :: rest ->
    truthy_opt (Completion.content (Completion.message choice)) = false ->
    Unusable completion (JsError "No response content from OpenAI").

(** The five ways a run of [POST] ends. *)
Inductive Answered
  (base64_length : string -> Z)
  (create : CreateParams -> Thrown + Completion.t)
  (req : Request) : list Effect * NextResponse -> Prop :=
| Unreadable thrown :
    Proxy.json req = inl thrown ->
    Answered base64_length create req (on_error thrown)
| Missing b :
    Proxy.json req = inr b ->
    truthy_opt (imageBase64 b) = false ->
    Answered base64_length create req
      ([], json_error "Image data not provided" 400)
| Oversized b image :
    Proxy.json req = inr b ->
    imageBase64 b = Some image ->
    image <> "" ->
    (20 * 1024 * 1024 < base64_length image)%Z ->
    Answered base64_length create req
      ([], json_error "Image size exceeds 20MB limit" 400)
| Failed b image thrown :
    Proxy.json req = inr b ->
    imageBase64 b = Some image ->
    image <> "" ->
    (base64_length image <= 20 * 1024 * 1024)%Z ->
    create (create_params image (question b)) = inl thrown
    \/ (exists completion,
          create (create_params image (question b)) = inr completion
          /\ Unusable completion thrown) ->
    Answered base64_length create req
      (UpstreamCall (create_params image (question b)) :: fst (on_error thrown),
       snd (on_error thrown))
| Succeeded b image completion choice rest X :
    Proxy.json req = inr b ->
    imageBase64 b = Some image ->
    image <> "" ->
    (base64_length image <= 20 * 1024 * 1024)%Z ->
    create (create_params image (question b)) = inr completion ->
    Completion.choices completion = choice :: rest ->
    Completion.content (Completion.message choice) = Some X ->
    X <> "" ->
    Answered base64_length create req
      ([UpstreamCall (create_params image (question b))], json_result X).

End Outcome.

(** ** What every turn of the event loop keeps *)

Module Reach.
Import Js Wire Chat.

(** The texts [handleImageSelect] puts in the error state, and the empty
    one. *)
Definition selection_errors : list string :=
  [ "";
    "Image size must be less than 20MB";
    "Only JPEG, PNG, WEBP, and non-animated GIF files are supported" ].

(** [st'] comes after [st]: a lowered loading flag stays down, an error
    text of the selection stays one, and the transcript only grows at its
    end. *)
Definition Tame (st st' : State) : Prop :=
  (isLoading st = false -> isLoading st' = false)
  /\ (In (Chat.error st) selection_errors ->
      In (Chat.error st') selection_errors)
  /\ exists suffix, messages st' = (messages st ++ suffix)%list.

End Reach.

(** * Properties *)

Import Js Wire System.

(** ** Strings *)

Lemma prefix_append (needle rest : string) :
  prefix needle (needle ++ rest) = true.
Proof.
  induction needle as [|c needle IH]; simpl.
  - now destruct rest.
  - destruct (ascii_dec c c) as [_|ne]; [exact IH | now destruct ne].
Qed.

Lemma prefix_inv (needle hay : string) :
  prefix needle hay = true -> exists rest, hay = needle ++ rest.
Proof.
  revert hay; induction needle as [|c needle IH]; intros hay H.
  - now exists hay.
  - destruct hay as [|d hay]; simpl in H; [discriminate|].
    destruct (ascii_dec c d) as [->|]; [|discriminate].
    destruct (IH _ H) as [rest ->]. now exists rest.
Qed.

(** [includes] decides occurrence. *)
Lemma includes_contains (hay needle : string) :
  includes hay needle = true <-> contains hay needle.
Proof.
  split.
  - induction hay as [|c hay IH]; cbn [includes]; intros H.
    + rewrite orb_false_r in H. destruct (prefix_inv _ _ H) as [rest E].
      now exists "", rest.
    + apply orb_true_iff in H as [H|H].
      * destruct (prefix_inv _ _ H) as [rest E]. now exists "", rest.
      * destruct (IH H) as (before & after & ->).
        now exists (String c before), after.
  - intros (before & after & ->).
    induction before as [|c before IH]; cbn [append includes].
    + destruct (needle ++ after) eqn:E; cbn [includes];
        rewrite <- E, prefix_append; reflexivity.
    + rewrite IH. apply orb_true_r.
Qed.

Lemma includes_false (hay needle : string) :
  ~ contains hay needle -> includes hay needle = false.
Proof.
  intros H. destruct (includes hay needle) eqn:E; [|reflexivity].
  now apply includes_contains in E.
Qed.

Lemma truthy_nonempty (s : string) : truthy s = true <-> s <> "".
Proof. destruct s; simpl; split; congruence. Qed.

Lemma truthy_trim (s : string) : truthy (trim s) = true -> truthy s = true.
Proof. now destruct s. Qed.

Lemma or_else_nonempty (s d : string) : s <> "" -> or_else s d = s.
Proof. intros H. unfold or_else. now apply truthy_nonempty in H as ->. Qed.

Lemma array_includes_In (l : list string) (x : string) :
  array_includes l x = true <-> In x l.
Proof.
  unfold array_includes. rewrite existsb_exists. split.
  - intros (y & Hy & E). apply String.eqb_eq in E. now subst.
  - intros H. exists x. split; [exact H | apply String.eqb_refl].
Qed.

Lemma split_free (sep : ascii) (s : string) :
  free_of sep s -> split sep s = [s].
Proof.
  unfold free_of. induction s as [|c s IH]; simpl; intros H; [reflexivity|].
  destruct (Ascii.eqb_spec c sep) as [->|_].
  - destruct H. now left.
  - rewrite IH; [reflexivity | intros Hin; apply H; now right].
Qed.

Lemma split_append (sep : ascii) (head tail : string) :
  free_of sep head ->
  split sep (head ++ String sep tail) = head :: split sep tail.
Proof.
  unfold free_of. induction head as [|c head IH]; simpl; intros H.
  - now rewrite Ascii.eqb_refl.
  - destruct (Ascii.eqb_spec c sep) as [->|_].
    + destruct H. now left.
    + rewrite IH; [reflexivity | intros Hin; apply H; now right].
Qed.

Lemma free_of_append (c : ascii) (s t : string) :
  free_of c s -> free_of c t -> free_of c (s ++ t).
Proof.
  unfold free_of. induction s as [|d s IH]; simpl; intros Hs Ht; [exact Ht|].
  intros [->|Hin]; [apply Hs; now left|].
  apply IH; [intros H; apply Hs; now right | exact Ht | exact Hin].
Qed.

Lemma string_append_assoc (s t u : string) : s ++ t ++ u = (s ++ t) ++ u.
Proof. induction s as [|c s IH]; simpl; [reflexivity | now rewrite IH]. Qed.

(** The payload is what [split(',')[1]] reads off a data URL. *)
Lemma split_data_url (mime payload : string) :
  free_of ","%char mime -> free_of ","%char payload ->
  nth_error (split ","%char (data_url mime payload)) 1 = Some payload.
Proof.
  intros Hm Hp. unfold data_url.
  replace ("data:" ++ mime ++ ";base64," ++ payload)
    with (("data:" ++ mime ++ ";base64") ++ String ","%char payload).
  - rewrite split_append, (split_free _ _ Hp); [reflexivity|].
    apply (free_of_append _ "data:"). 
    + unfold free_of; simpl. intros H.
      repeat (destruct H as [H|H]; [discriminate H|]). exact H.
    + apply free_of_append; [exact Hm|].
      unfold free_of; simpl. intros H.
      repeat (destruct H as [H|H]; [discriminate H|]). exact H.
  - rewrite <- !string_append_assoc. reflexivity.
Qed.

(** ** The proxy route *)

Import Proxy.

Ltac run_handler :=
  unfold POST, POST_try, openai_create, try_catch, on_error, Proxy.bind,
    Proxy.lift, tell, Proxy.ret, Proxy.throw, response, upstream_calls;
  cbn [fst snd app flat_map].

Section ForwardedRequest.

(** A request that passes both validations: its body has a non-empty
    [imageBase64] that decodes to at most 20 MiB. *)
Variable base64_length : string -> Z.
Variable create : CreateParams -> Thrown + Completion.t.
Variable req : Request.
Variable b : VisionRequest.
Variable image : string.
Hypothesis body_parsed : Proxy.json req = inr b.
Hypothesis image_given : imageBase64 b = Some image.
Hypothesis image_nonempty : image <> "".
Hypothesis image_fits : (base64_length image <= 20 * 1024 * 1024)%Z.

Lemma POST_forwarded :
  POST base64_length create req =
  try_catch
    (completion <- openai_create create (create_params image (question b)) ;;
     result <- Proxy.lift (first_choice_content completion) ;;
     match result with
     | Some text =>
         if negb (truthy text) then
           Proxy.throw (JsError "No response content from OpenAI")
         else Proxy.ret (json_result text)
     | None => Proxy.throw (JsError "No response content from OpenAI")
     end)%handler
    on_error.
Proof.
  unfold POST, POST_try. rewrite body_parsed.
  unfold Proxy.lift at 1. unfold Proxy.bind at 1.
  rewrite image_given.
  rewrite (proj2 (truthy_nonempty image) image_nonempty). cbn [negb].
  destruct (Z.gtb_spec (base64_length image) (20 * 1024 * 1024)) as [Hgt|_];
    [lia|].
  now destruct (Proxy.bind _ _) as [log r].
Qed.

Lemma POST_calls_once :
  upstream_calls (POST base64_length create req)
  = [create_params image (question b)].
Proof.
  rewrite POST_forwarded. run_handler.
  destruct (create _) as [thrown|completion]; [reflexivity|].
  unfold first_choice_content.
  destruct (Completion.choices completion) as [|choice rest]; [reflexivity|].
  destruct (Completion.content _) as [[|c text]|]; reflexivity.
Qed.

Lemma POST_rejected (thrown : Thrown) :
  create (create_params image (question b)) = inl thrown ->
  response (POST base64_length create req) = snd (on_error thrown).
Proof. intros E. rewrite POST_forwarded. run_handler. now rewrite E. Qed.

Lemma POST_completed (completion : Completion.t) :
  create (create_params image (question b)) = inr completion ->
  response (POST base64_length create req) =
  match first_choice_content completion with
  | inl thrown => snd (on_error thrown)
  | inr (Some (String c text)) => json_result (String c text)
  | inr _ => snd (on_error (JsError "No response content from OpenAI"))
  end.
Proof.
  intros E. rewrite POST_forwarded. run_handler. rewrite E.
  destruct (first_choice_content completion) as [thrown|[[|c text]|]];
    reflexivity.
Qed.

(** C1. When the completion API answers a forwarded request with a first
    choice whose message content is a non-empty string X, the route answers
    200 with the body [{result: X}]; and the component, handed that answer,
    appends the single assistant message X to the transcript, clears the
    selected image and the preview, changes nothing else and ends without a
    throw. *)
Theorem C1_success_round_trip
  (completion : Completion.t) (choice : Completion.Choice)
  (rest : list Completion.Choice) (X : string) (st : Chat.State) :
  create (create_params image (question b)) = inr completion ->
  Completion.choices completion = choice :: rest ->
  Completion.content (Completion.message choice) = Some X ->
  X <> "" ->
  response (POST base64_length create req)
  = {| status := 200; body := {| result := Some X; error := None |} |}
  /\ Chat.submit_onresponse
       (deliver (response (POST base64_length create req))) st
     = ( {| Chat.userInput := Chat.userInput st;
            Chat.messages :=
              (Chat.messages st
               ++ [ {| Chat.role := Chat.assistant;
                       Chat.text := Some X;
                       Chat.imageUrl := None |} ])%list;
            Chat.isLoading := Chat.isLoading st;
            Chat.selectedImage := None;
            Chat.imagePreview := Some "";
            Chat.error := Chat.error st |},
         [], inr tt ).
Proof.
  intros Hcreate Hchoices Hcontent HX.
  assert (Hanswer : response (POST base64_length create req) = json_result X).
  { rewrite (POST_completed _ Hcreate). unfold first_choice_content.
    rewrite Hchoices, Hcontent. destruct X; [now destruct HX | reflexivity]. }
  rewrite Hanswer. split; reflexivity.
Qed.

(** C3, as the code has it.  When the completion API rejects a forwarded
    request with an Error, the first matching substring of its message, in
    the order "maximum context length", "invalid_api_key",
    "rate_limit_exceeded", decides the answer: 400, 401, or 429 with the
    text "Rate limit exceeded"; an Error with none of the three gives 500
    with its own message, and a thrown value that is no Error gives 500 with
    a fixed text. *)
Theorem C3_first_matching_substring (thrown : Thrown) :
  create (create_params image (question b)) = inl thrown ->
  (forall message, thrown = JsError message ->
     contains message "maximum context length" ->
     response (POST base64_length create req)
     = json_error "Image is too large or complex to process" 400)
  /\ (forall message, thrown = JsError message ->
        ~ contains message "maximum context length" ->
        contains message "invalid_api_key" ->
        response (POST base64_length create req)
        = json_error "Invalid API key" 401)
  /\ (forall message, thrown = JsError message ->
        ~ contains message "maximum context length" ->
        ~ contains message "invalid_api_key" ->
        contains message "rate_limit_exceeded" ->
        response (POST base64_length create req)
        = json_error "Rate limit exceeded" 429)
  /\ (forall message, thrown = JsError message ->
        ~ contains message "maximum context length" ->
        ~ contains message "invalid_api_key" ->
        ~ contains message "rate_limit_exceeded" ->
        response (POST base64_length create req) = json_error message 500)
  /\ (thrown = NonError ->
      response (POST base64_length create req)
      = json_error "Failed to analyze the image" 500).
Proof.
  intros Hcreate. rewrite (POST_rejected _ Hcreate).
  repeat split; intros; subst thrown; cbn [on_error snd];
    repeat match goal with
           | H : contains _ _ |- _ => apply includes_contains in H; rewrite H
           | H : ~ contains _ _ |- _ => apply includes_false in H; rewrite H
           end; reflexivity.
Qed.

(** C7. When the completion API answers a forwarded request with no choice
    at all, or with a first choice whose message content is [null] or the
    empty string, the route answers with status 500 and an error body, never
    with 200 or a result. *)
Theorem C7_empty_content_is_500 (completion : Completion.t) :
  create (create_params image (question b)) = inr completion ->
  (Completion.choices completion = []
   \/ exists choice rest,
        Completion.choices completion = choice :: rest
        /\ (Completion.content (Completion.message choice) = None
            \/ Completion.content (Completion.message choice) = Some "")) ->
  status (response (POST base64_length create req)) = 500%Z
  /\ status (response (POST base64_length create req)) <> 200%Z
  /\ result (body (response (POST base64_length create req))) = None
  /\ exists text,
       error (body (response (POST base64_length create req))) = Some text.
Proof.
  intros Hcreate Hempty. rewrite (POST_completed _ Hcreate).
  unfold first_choice_content.
  destruct Hempty as [->|(choice & rest & -> & [->| ->])];
    (repeat split; [discriminate | eexists; reflexivity]).
Qed.

End ForwardedRequest.

Section Validation.

Variable base64_length : string -> Z.
Variable create : CreateParams -> Thrown + Completion.t.
Variable req : Request.
Variable b : VisionRequest.
Hypothesis body_parsed : Proxy.json req = inr b.

Lemma POST_missing :
  truthy_opt (imageBase64 b) = false ->
  POST base64_length create req
  = ([], json_error "Image data not provided" 400).
Proof.
  intros Hfalsy. unfold POST, POST_try. rewrite body_parsed.
  unfold Proxy.lift at 1. unfold Proxy.bind at 1.
  destruct (imageBase64 b) as [image|]; [|reflexivity].
  cbn [truthy_opt] in Hfalsy. now rewrite Hfalsy.
Qed.

Lemma POST_oversized (image : string) :
  imageBase64 b = Some image ->
  image <> "" ->
  (20 * 1024 * 1024 < base64_length image)%Z ->
  POST base64_length create req
  = ([], json_error "Image size exceeds 20MB limit" 400).
Proof.
  intros Himage Hne Hbig. unfold POST, POST_try. rewrite body_parsed.
  unfold Proxy.lift at 1. unfold Proxy.bind at 1. rewrite Himage.
  rewrite (proj2 (truthy_nonempty image) Hne). cbn [negb].
  destruct (Z.gtb_spec (base64_length image) (20 * 1024 * 1024));
    [reflexivity | lia].
Qed.

End Validation.

(** C2. A body without [imageBase64] is answered 400 with the text "Image
    data not provided", a body whose [imageBase64] decodes to more than
    20 * 1024 * 1024 bytes is answered 400 with the size-limit text, and
    in neither case is the completion API called. *)
Theorem C2_validation_short_circuits
  (base64_length : string -> Z)
  (create : CreateParams -> Thrown + Completion.t)
  (req : Request) (b : VisionRequest) :
  base64_length "" = 0%Z ->
  Proxy.json req = inr b ->
  (imageBase64 b = None ->
   response (POST base64_length create req)
   = {| status := 400;
        body := {| result := None;
                   error := Some "Image data not provided" |} |}
   /\ upstream_calls (POST base64_length create req) = [])
  /\ (forall image,
        imageBase64 b = Some image ->
        (20 * 1024 * 1024 < base64_length image)%Z ->
        response (POST base64_length create req)
        = {| status := 400;
             body := {| result := None;
                        error := Some "Image size exceeds 20MB limit" |} |}
        /\ upstream_calls (POST base64_length create req) = []).
Proof.
  intros Hempty Hjson. split.
  - intros Hnone.
    rewrite (POST_missing base64_length create req b Hjson);
      [split; reflexivity | now rewrite Hnone].
  - intros image Himage Hbig.
    assert (Hne : image <> "") by (intros ->; lia).
    rewrite (POST_oversized base64_length create req b Hjson image
               Himage Hne Hbig).
    split; reflexivity.
Qed.

(** C6. Every call the route makes to the completion API carries one user
    message made of the question and of an image part whose URL is
    "data:image/jpeg;base64," followed by the [imageBase64] received, with
    detail "auto", and has [max_tokens] 300.  The type of the selected file
    plays no part: whatever type the data URL read by the component names,
    the component sends the payload alone and the route labels it JPEG. *)
Theorem C6_forwarded_as_jpeg
  (base64_length : string -> Z)
  (create : CreateParams -> Thrown + Completion.t) :
  (forall req params,
     In params (upstream_calls (POST base64_length create req)) ->
     exists image asked,
       Proxy.json req = inr {| imageBase64 := Some image; question := asked |}
       /\ params
          = {| model := "gpt-4o-mini";
               messages :=
                 [ {| role := "user";
                      content :=
                        [ TextPart asked;
                          ImageUrlPart ("data:image/jpeg;base64," ++ image)
                                       "auto" ] |} ];
               max_tokens := 300 |})
  /\ (forall mime payload render st,
        free_of ","%char mime -> free_of ","%char payload ->
        payload <> "" ->
        (base64_length payload <= 20 * 1024 * 1024)%Z ->
        exists sent,
          Chat.outcome_of
            (Chat.submit_onloadend render (Some (data_url mime payload)) st)
          = inr sent
          /\ imageBase64 sent = Some payload
          /\ upstream_calls
               (POST base64_length create {| Proxy.json := inr sent |})
             = [ {| model := "gpt-4o-mini";
                    messages :=
                      [ {| role := "user";
                           content :=
                             [ TextPart (question sent);
                               ImageUrlPart
                                 ("data:image/jpeg;base64," ++ payload)
                                 "auto" ] |} ];
                    max_tokens := 300 |} ]).
Proof.
  split.
  - intros req params Hin.
    destruct req as [[thrown|[[image|] asked]]].
    + contradiction Hin.
    + set (parsed := {| imageBase64 := Some image; question := asked |}) in *.
      destruct (string_dec image "") as [->|Hne]; [contradiction Hin|].
      destruct (Z_le_gt_dec (base64_length image) (20 * 1024 * 1024))
        as [Hfits|Hbig].
      * rewrite (POST_calls_once base64_length create
                   {| Proxy.json := inr parsed |} parsed image
                   eq_refl eq_refl Hne Hfits) in Hin.
        destruct Hin as [<-|[]]. now exists image, asked.
      * rewrite (POST_oversized base64_length create
                   {| Proxy.json := inr parsed |} parsed
                   eq_refl image eq_refl Hne) in Hin;
          [contradiction Hin | lia].
    + contradiction Hin.
  - intros mime payload render st Hmime Hpayload Hne Hfits.
    unfold Chat.submit_onloadend. rewrite (split_data_url _ _ Hmime Hpayload).
    cbn [truthy_opt]. rewrite (proj2 (truthy_nonempty payload) Hne).
    eexists. split; [reflexivity|]. split; [reflexivity|].
    match goal with
    | |- upstream_calls (POST _ _ {| Proxy.json := inr ?sent |}) = _ =>
        now rewrite (POST_calls_once base64_length create
                       {| Proxy.json := inr sent |} sent payload
                       eq_refl eq_refl Hne Hfits)
    end.
Qed.

(** *** The route on concrete requests *)

Lemma base64_data_chars_repeat (n : nat) :
  base64_data_chars (repeat_string "AAAA" n) = (4 * n)%nat.
Proof.
  induction n as [|n IH]; [reflexivity|].
  change (repeat_string "AAAA" (S n))
    with (String "A" (String "A" (String "A" (String "A"
            (repeat_string "AAAA" n))))).
  cbn [base64_data_chars]. change (Ascii.eqb "A" "=") with false.
  change (is_base64_char "A") with true. cbv iota. rewrite IH. lia.
Qed.

Lemma long_payload_length :
  node_base64_length Sample.long_payload = 21000000%Z.
Proof.
  unfold node_base64_length, Sample.long_payload.
  rewrite base64_data_chars_repeat, Nat2Z.inj_mul, N_nat_Z. reflexivity.
Qed.

Lemma C1_success_round_trip_witness :
  response (POST node_base64_length (Sample.answering (Some "A cat"))
              Sample.request)
  = {| status := 200; body := {| result := Some "A cat"; error := None |} |}
  /\ Chat.submit_onresponse
       (deliver (response (POST node_base64_length
                             (Sample.answering (Some "A cat"))
                             Sample.request)))
       Chat.initial
     = ( {| Chat.userInput := "";
            Chat.messages :=
              [ {| Chat.role := Chat.assistant;
                   Chat.text := Some "A cat";
                   Chat.imageUrl := None |} ];
            Chat.isLoading := false;
            Chat.selectedImage := None;
            Chat.imagePreview := Some "";
            Chat.error := "" |},
         [], inr tt ).
Proof.
  apply (C1_success_round_trip node_base64_length
           (Sample.answering (Some "A cat")) Sample.request
           {| imageBase64 := Some "AAAA";
              question := Some "What is in this image?" |}
           "AAAA" eq_refl eq_refl)
    with (completion := {| Completion.choices :=
                             [ {| Completion.message :=
                                    {| Completion.content := Some "A cat" |}
                               |} ] |})
         (choice := {| Completion.message :=
                         {| Completion.content := Some "A cat" |} |})
         (rest := []).
  - discriminate.
  - vm_compute. discriminate.
  - reflexivity.
  - reflexivity.
  - reflexivity.
  - discriminate.
Defined.

Lemma C2_validation_short_circuits_witness :
  (response (POST node_base64_length (Sample.answering (Some "A cat"))
               {| Proxy.json :=
                    inr {| imageBase64 := None; question := Some "Why?" |} |})
   = json_error "Image data not provided" 400
   /\ upstream_calls
        (POST node_base64_length (Sample.answering (Some "A cat"))
           {| Proxy.json :=
                inr {| imageBase64 := None; question := Some "Why?" |} |})
      = [])
  /\ ((20 * 1024 * 1024 < node_base64_length Sample.long_payload)%Z
      /\ response
           (POST node_base64_length (Sample.answering (Some "A cat"))
              {| Proxy.json :=
                   inr {| imageBase64 := Some Sample.long_payload;
                          question := Some "Why?" |} |})
         = json_error "Image size exceeds 20MB limit" 400
      /\ upstream_calls
           (POST node_base64_length (Sample.answering (Some "A cat"))
              {| Proxy.json :=
                   inr {| imageBase64 := Some Sample.long_payload;
                          question := Some "Why?" |} |})
         = []).
Proof.
  split.
  - apply (proj1 (C2_validation_short_circuits node_base64_length
                    (Sample.answering (Some "A cat"))
                    {| Proxy.json :=
                         inr {| imageBase64 := None;
                                question := Some "Why?" |} |}
                    {| imageBase64 := None; question := Some "Why?" |}
                    eq_refl eq_refl)).
    reflexivity.
  - assert (Hbig : (20 * 1024 * 1024
                    < node_base64_length Sample.long_payload)%Z)
      by (rewrite long_payload_length; reflexivity).
    split; [exact Hbig|].
    apply (proj2 (C2_validation_short_circuits node_base64_length
                    (Sample.answering (Some "A cat"))
                    {| Proxy.json :=
                         inr {| imageBase64 := Some Sample.long_payload;
                                question := Some "Why?" |} |}
                    {| imageBase64 := Some Sample.long_payload;
                       question := Some "Why?" |}
                    eq_refl eq_refl) Sample.long_payload eq_refl Hbig).
Defined.

Lemma not_contains_by_evaluation (hay needle : string) :
  includes hay needle = false -> ~ contains hay needle.
Proof.
  intros E H. apply includes_contains in H. rewrite E in H. discriminate H.
Qed.

(** A message that names the rate limit after the context length is
    answered 400, not 429: the first test of the chain wins. *)
Lemma C3_rate_limit_message_answered_400 :
  contains "maximum context length reached (rate_limit_exceeded)"
           "rate_limit_exceeded"
  /\ response
       (POST node_base64_length
          (Sample.rejecting
             (JsError "maximum context length reached (rate_limit_exceeded)"))
          Sample.request)
     = json_error "Image is too large or complex to process" 400
  /\ status
       (response
          (POST node_base64_length
             (Sample.rejecting
                (JsError
                   "maximum context length reached (rate_limit_exceeded)"))
             Sample.request))
     <> 429%Z.
Proof.
  split; [|split].
  - apply includes_contains. reflexivity.
  - reflexivity.
  - discriminate.
Qed.

Lemma C3_first_matching_substring_witness :
  response
    (POST node_base64_length
       (Sample.rejecting (JsError "429 rate_limit_exceeded: slow down"))
       Sample.request)
  = json_error "Rate limit exceeded" 429.
Proof.
  refine (proj1 (proj2 (proj2
            (C3_first_matching_substring node_base64_length
               (Sample.rejecting
                  (JsError "429 rate_limit_exceeded: slow down"))
               Sample.request
               {| imageBase64 := Some "AAAA";
                  question := Some "What is in this image?" |}
               "AAAA" eq_refl eq_refl _ _
               (JsError "429 rate_limit_exceeded: slow down") eq_refl)))
            "429 rate_limit_exceeded: slow down" eq_refl _ _ _).
  - discriminate.
  - vm_compute. discriminate.
  - apply not_contains_by_evaluation. reflexivity.
  - apply not_contains_by_evaluation. reflexivity.
  - apply includes_contains. reflexivity.
Defined.

Lemma C6_forwarded_as_jpeg_witness :
  In (create_params "AAAA" (Some "What is in this image?"))
     (upstream_calls
        (POST node_base64_length (Sample.answering (Some "A cat"))
           Sample.request))
  /\ (exists image asked,
        Proxy.json Sample.request
        = inr {| imageBase64 := Some image; question := asked |}
        /\ create_params "AAAA" (Some "What is in this image?")
           = {| model := "gpt-4o-mini";
                messages :=
                  [ {| role := "user";
                       content :=
                         [ TextPart asked;
                           ImageUrlPart ("data:image/jpeg;base64," ++ image)
                                        "auto" ] |} ];
                max_tokens := 300 |})
  /\ exists sent,
       Chat.outcome_of
         (Chat.submit_onloadend Chat.initial (Some Sample.png_url)
            Chat.initial)
       = inr sent
       /\ imageBase64 sent = Some "AAAA"
       /\ upstream_calls
            (POST node_base64_length (Sample.answering (Some "A cat"))
               {| Proxy.json := inr sent |})
          = [ create_params "AAAA" (question sent) ].
Proof.
  assert (Hcalled :
            In (create_params "AAAA" (Some "What is in this image?"))
               (upstream_calls
                  (POST node_base64_length (Sample.answering (Some "A cat"))
                     Sample.request)))
    by (left; reflexivity).
  split; [exact Hcalled|]. split.
  - exact (proj1 (C6_forwarded_as_jpeg node_base64_length
                    (Sample.answering (Some "A cat")))
             Sample.request _ Hcalled).
  - apply (proj2 (C6_forwarded_as_jpeg node_base64_length
                    (Sample.answering (Some "A cat")))
             "image/png" "AAAA" Chat.initial Chat.initial).
    + unfold free_of. cbn. intros H.
      repeat (destruct H as [H|H]; [discriminate H|]). exact H.
    + unfold free_of. cbn. intros H.
      repeat (destruct H as [H|H]; [discriminate H|]). exact H.
    + discriminate.
    + vm_compute. discriminate.
Defined.

Lemma C7_empty_content_is_500_witness :
  status
    (response
       (POST node_base64_length
          (fun _ => inr {| Completion.choices := [] |}) Sample.request))
  = 500%Z
  /\ status
       (response
          (POST node_base64_length (Sample.answering (Some ""))
             Sample.request))
     = 500%Z
  /\ status
       (response
          (POST node_base64_length (Sample.answering None) Sample.request))
     = 500%Z.
Proof.
  split; [|split].
  - apply (C7_empty_content_is_500 node_base64_length
             (fun _ => inr {| Completion.choices := [] |}) Sample.request
             {| imageBase64 := Some "AAAA";
                question := Some "What is in this image?" |}
             "AAAA" eq_refl eq_refl)
      with (completion := {| Completion.choices := [] |}).
    + discriminate.
    + vm_compute. discriminate.
    + reflexivity.
    + left. reflexivity.
  - apply (C7_empty_content_is_500 node_base64_length
             (Sample.answering (Some "")) Sample.request
             {| imageBase64 := Some "AAAA";
                question := Some "What is in this image?" |}
             "AAAA" eq_refl eq_refl)
      with (completion :=
              {| Completion.choices :=
                   [ {| Completion.message :=
                          {| Completion.content := Some "" |} |} ] |}).
    + discriminate.
    + vm_compute. discriminate.
    + reflexivity.
    + right. eexists. eexists. split; [reflexivity | right; reflexivity].
  - apply (C7_empty_content_is_500 node_base64_length
             (Sample.answering None) Sample.request
             {| imageBase64 := Some "AAAA";
                question := Some "What is in this image?" |}
             "AAAA" eq_refl eq_refl)
      with (completion :=
              {| Completion.choices :=
                   [ {| Completion.message :=
                          {| Completion.content := None |} |} ] |}).
    + discriminate.
    + vm_compute. discriminate.
    + reflexivity.
    + right. eexists. eexists. split; [reflexivity | left; reflexivity].
Defined.

(** ** The chat component *)

Import Chat.

Ltac run_chat :=
  unfold handleImageSelect, handleSubmit, submit_onloadend, submit_onresponse,
    preview_onloadend, try_finally, try_catch, setUserInput, setMessages,
    setIsLoading, setSelectedImage, setImagePreview, setError, Chat.bind,
    Chat.lift, Chat.ret, Chat.throw, perform, update, state_of, effects_of,
    outcome_of;
  cbn [fst snd app userInput messages isLoading selectedImage imagePreview
       Chat.error is_some negb andb orb].

(** C9. Selecting a file larger than 20 * 1024 * 1024 bytes, or one whose
    type is none of image/jpeg, image/png, image/webp and image/gif, sets a
    non-empty error, which the error area shows, and changes neither the
    selected image nor the preview; no read is started. *)
Theorem C9_rejected_selection (file : File) (st : State) :
  (20 * 1024 * 1024 < size file)%Z
  \/ ~ In (type file) ["image/jpeg"; "image/png"; "image/webp"; "image/gif"] ->
  Chat.error (state_of (handleImageSelect (Some file) st)) <> ""
  /\ error_area (state_of (handleImageSelect (Some file) st))
     = Some (Chat.error (state_of (handleImageSelect (Some file) st)))
  /\ ((20 * 1024 * 1024 < size file)%Z ->
      Chat.error (state_of (handleImageSelect (Some file) st))
      = "Image size must be less than 20MB")
  /\ ((size file <= 20 * 1024 * 1024)%Z ->
      Chat.error (state_of (handleImageSelect (Some file) st))
      = "Only JPEG, PNG, WEBP, and non-animated GIF files are supported")
  /\ selectedImage (state_of (handleImageSelect (Some file) st))
     = selectedImage st
  /\ imagePreview (state_of (handleImageSelect (Some file) st))
     = imagePreview st
  /\ messages (state_of (handleImageSelect (Some file) st)) = messages st
  /\ effects_of (handleImageSelect (Some file) st) = []
  /\ outcome_of (handleImageSelect (Some file) st) = inr tt.
Proof.
  intros Hbad. unfold handleImageSelect.
  destruct (Z.gtb_spec (size file) (20 * 1024 * 1024)) as [Hbig|Hfits].
  - run_chat. repeat split; try reflexivity; try discriminate. lia.
  - destruct Hbad as [Hbig|Htype]; [lia|].
    destruct (array_includes _ (type file)) eqn:E.
    + apply array_includes_In in E. contradiction.
    + run_chat. repeat split; try reflexivity; try discriminate. lia.
Qed.

Lemma C9_rejected_selection_witness :
  Chat.error
    (state_of
       (handleImageSelect
          (Some {| name := "notes.pdf"; size := 1024;
                   type := "application/pdf" |})
          initial))
  = "Only JPEG, PNG, WEBP, and non-animated GIF files are supported"
  /\ Chat.error
       (state_of
          (handleImageSelect
             (Some {| name := "huge.png"; size := 20 * 1024 * 1024 + 1;
                      type := "image/png" |})
             initial))
     = "Image size must be less than 20MB".
Proof.
  split.
  - apply (C9_rejected_selection
             {| name := "notes.pdf"; size := 1024;
                type := "application/pdf" |} initial).
    + right. cbn. intros H.
      repeat (destruct H as [H|H]; [discriminate H|]). exact H.
    + cbn. lia.
  - apply (C9_rejected_selection
             {| name := "huge.png"; size := 20 * 1024 * 1024 + 1;
                type := "image/png" |} initial).
    + left. cbn. lia.
    + cbn. lia.
Defined.

(** What [handleSubmit] leaves behind when it does not return early. *)
Lemma handleSubmit_run (st : State) :
  negb (truthy (trim (userInput st))) && negb (is_some (selectedImage st))
  = false ->
  handleSubmit st st
  = ( {| userInput := "";
         messages :=
           if truthy (trim (userInput st)) then
             (messages st ++ [ {| role := user;
                                  text := Some (userInput st);
                                  imageUrl := None |} ])%list
           else messages st;
         isLoading := false;
         selectedImage := selectedImage st;
         imagePreview := imagePreview st;
         Chat.error := "" |},
      (PreventDefault
       :: match selectedImage st with
          | Some file => [ReadAsDataURL file (SubmitReader st)]
          | None => []
          end ++ [ScrollToBottom])%list,
      inr tt ).
Proof.
  intros Hen. unfold handleSubmit. rewrite Hen. run_chat.
  destruct (selectedImage st) as [file|], (truthy (trim (userInput st)));
    reflexivity.
Qed.

(** The loading flag is already down when [handleSubmit] ends. *)
Lemma handleSubmit_loading_flag (st : State) :
  negb (truthy (trim (userInput st))) && negb (is_some (selectedImage st))
  = false ->
  isLoading (state_of (handleSubmit st st)) = false.
Proof. intros H. now rewrite (handleSubmit_run st H). Qed.

(** The callback appends to the transcript as it is when it runs. *)
Lemma submit_onloadend_run
  (render st : State) (dataUrl payload : string) :
  nth_error (split ","%char dataUrl) 1 = Some payload ->
  payload <> "" ->
  submit_onloadend render (Some dataUrl) st
  = ( {| userInput := userInput st;
         messages :=
           (messages st
            ++ [ {| role := user;
                    text := Some (or_else (userInput render)
                                          "What is in this image?");
                    imageUrl := imagePreview render |} ])%list;
         isLoading := isLoading st;
         selectedImage := selectedImage st;
         imagePreview := imagePreview st;
         Chat.error := Chat.error st |},
      [ Fetch "/api/assistants/vision"
          {| imageBase64 := Some payload;
             question := Some (or_else (userInput render)
                                       "What is in this image?") |} ],
      inr {| imageBase64 := Some payload;
             question := Some (or_else (userInput render)
                                       "What is in this image?") |} ).
Proof.
  intros Hsplit Hne. unfold submit_onloadend. rewrite Hsplit.
  cbn [truthy_opt]. rewrite (proj2 (truthy_nonempty payload) Hne).
  reflexivity.
Qed.

(** With an empty input the default question is shown and sent. *)
Lemma submit_onloadend_empty_input
  (render st : State) (dataUrl payload : string) :
  userInput render = "" ->
  nth_error (split ","%char dataUrl) 1 = Some payload ->
  payload <> "" ->
  messages (state_of (submit_onloadend render (Some dataUrl) st))
  = (messages st ++ [ {| role := user;
                         text := Some "What is in this image?";
                         imageUrl := imagePreview render |} ])%list
  /\ outcome_of (submit_onloadend render (Some dataUrl) st)
     = inr {| imageBase64 := Some payload;
              question := Some "What is in this image?" |}.
Proof.
  intros Hinput Hsplit Hne.
  rewrite (submit_onloadend_run render st dataUrl payload Hsplit Hne).
  rewrite Hinput. split; reflexivity.
Qed.

(** C10, as the code has it.  Submitting a non-blank text together with a
    selected image appends the text alone at once and starts the read;
    when the reader's callback fires with a data URL that has a non-empty
    payload after its comma, it appends the same text with the preview,
    after the first message: two user messages, not one. *)
Theorem C10_two_user_messages
  (st : State) (file : File) (dataUrl payload : string) :
  selectedImage st = Some file ->
  trim (userInput st) <> "" ->
  nth_error (split ","%char dataUrl) 1 = Some payload ->
  payload <> "" ->
  messages (state_of (handleSubmit st st))
  = (messages st ++ [ {| role := user;
                         text := Some (userInput st);
                         imageUrl := None |} ])%list
  /\ started_reads (effects_of (handleSubmit st st))
     = [(file, SubmitReader st)]
  /\ messages
       (state_of
          (submit_onloadend st (Some dataUrl)
             (state_of (handleSubmit st st))))
     = (messages st
        ++ [ {| role := user;
                text := Some (userInput st);
                imageUrl := None |};
             {| role := user;
                text := Some (userInput st);
                imageUrl := imagePreview st |} ])%list.
Proof.
  intros Himage Htext Hsplit Hne.
  apply truthy_nonempty in Htext.
  assert (Hen : negb (truthy (trim (userInput st)))
                && negb (is_some (selectedImage st)) = false)
    by now rewrite Htext.
  rewrite (handleSubmit_run st Hen), Himage, Htext.
  rewrite (submit_onloadend_run st _ dataUrl payload Hsplit Hne).
  rewrite (or_else_nonempty (userInput st));
    [| apply truthy_nonempty, truthy_trim, Htext].
  cbn [state_of effects_of fst snd messages]. repeat split.
  now rewrite <- app_assoc.
Qed.

Lemma C10_two_user_messages_witness :
  ui (run start (Sample.attach ++ [TypeText "What is this?"]))
  = Sample.asking
  /\ messages
       (state_of
          (submit_onloadend Sample.asking (Some Sample.png_url)
             (state_of (handleSubmit Sample.asking Sample.asking))))
     = [ {| role := user; text := Some "What is this?"; imageUrl := None |};
         {| role := user; text := Some "What is this?";
            imageUrl := Some Sample.png_url |} ].
Proof.
  split; [reflexivity|].
  apply (C10_two_user_messages Sample.asking Sample.png Sample.png_url
           "AAAA").
  - reflexivity.
  - discriminate.
  - reflexivity.
  - discriminate.
Defined.

(** With an image of no byte, and with a read that fails, the callback
    throws at its guard before it appends: the submission of a non-blank
    text with an image selected leaves one user message, the text alone. *)
Lemma C10_one_message_without_payload :
  (selectedImage (ui (run start Sample.attach_empty_and_ask))
   = Some Sample.empty_png
   /\ trim (userInput (ui (run start Sample.attach_empty_and_ask))) <> ""
   /\ messages (ui (run start Sample.empty_file_session))
      = [ {| role := user; text := Some "What is this?"; imageUrl := None |} ]
   /\ reads (run start Sample.empty_file_session) = []
   /\ in_flight (run start Sample.empty_file_session) = []
   /\ unhandled (run start Sample.empty_file_session)
      = [JsError "Failed to process image"])
  /\ (messages (ui (run start Sample.failed_read_session))
      = [ {| role := user; text := Some "What is this?"; imageUrl := None |} ]
      /\ reads (run start Sample.failed_read_session) = []
      /\ in_flight (run start Sample.failed_read_session) = []).
Proof. repeat split. discriminate. Qed.

(** A refused answer, or one that is not JSON, ends the callback in a throw
    that no handler of the component receives; the state is left as it was,
    the error included. *)
Lemma submit_onresponse_refused (response : Response) (st : State) :
  ok response = false ->
  state_of (submit_onresponse response st) = st
  /\ effects_of (submit_onresponse response st) = []
  /\ exists thrown, outcome_of (submit_onresponse response st) = inl thrown.
Proof.
  intros Hok. unfold submit_onresponse. rewrite Hok. run_chat.
  destruct (json response) as [thrown|errorData]; cbn;
    (repeat split; eexists; reflexivity).
Qed.

(** C8, at an input of one space.  The input is blank for [handleSubmit]
    (its trimmed text is empty, so no text-only message is appended), yet
    the message shown with the image and the question sent are the space
    itself, not "What is in this image?". *)
Theorem C8_whitespace_input_sent_verbatim :
  trim " " = ""
  /\ messages (ui (run start Sample.whitespace_session))
     = [ {| role := user; text := Some " ";
            imageUrl := Some Sample.png_url |} ]
  /\ in_flight (run start Sample.whitespace_session)
     = [ {| imageBase64 := Some "AAAA"; question := Some " " |} ].
Proof. repeat split. Qed.

(** C4, on two sessions.  After the route refuses the image with a 400, and
    after a read that fails, the error state is still empty and the error
    area shows nothing: the throws of the reader's callbacks are caught by
    nobody.  The selected image and the preview are left as they were. *)
Theorem C4_failure_not_surfaced :
  (Chat.error (ui (run start Sample.refused_session)) = ""
   /\ error_area (ui (run start Sample.refused_session)) = None
   /\ unhandled (run start Sample.refused_session)
      = [JsError "Image size exceeds 20MB limit"]
   /\ selectedImage (ui (run start Sample.refused_session))
      = Some Sample.png
   /\ imagePreview (ui (run start Sample.refused_session))
      = Some Sample.png_url)
  /\ (Chat.error (ui (run start Sample.unreadable_session)) = ""
      /\ error_area (ui (run start Sample.unreadable_session)) = None
      /\ unhandled (run start Sample.unreadable_session)
         = [ JsError "Failed to read image file";
             JsError "Failed to process image" ]
      /\ selectedImage (ui (run start Sample.unreadable_session))
         = Some Sample.png).
Proof. repeat split. Qed.

(** C5, on one session.  Right after a submission with an image the loading
    flag is down although the read it started has not ended; nothing is
    disabled, so a second submission goes through and two requests are in
    flight together. *)
Theorem C5_loading_flag_down_while_in_flight :
  (isLoading (ui (run start (Sample.attach ++ [SubmitForm]))) = false
   /\ length (reads (run start (Sample.attach ++ [SubmitForm]))) = 1%nat
   /\ inputs_disabled (ui (run start (Sample.attach ++ [SubmitForm]))) = false
   /\ submit_disabled (ui (run start (Sample.attach ++ [SubmitForm]))) = false)
  /\ (isLoading (ui (run start (Sample.attach ++ Sample.submit_and_read)))
      = false
      /\ length (in_flight
                   (run start (Sample.attach ++ Sample.submit_and_read)))
         = 1%nat)
  /\ length (in_flight (run start Sample.double_submit_session)) = 2%nat.
Proof. repeat split. Qed.

(** * Further properties of the route *)

Import Wire Proxy Outcome.

Lemma on_error_run (thrown : Thrown) :
  on_error thrown
  = ([ConsoleError "Error in vision analysis:" thrown], snd (on_error thrown)).
Proof. reflexivity. Qed.

(** Every run of [POST] is one of the five of [Answered]. *)
Lemma POST_answered
  (base64_length : string -> Z)
  (create : CreateParams -> Thrown + Completion.t) (req : Request) :
  Answered base64_length create req (POST base64_length create req).
Proof.
  destruct (Proxy.json req) as [thrown|b] eqn:Hjson.
  - replace (POST base64_length create req) with (on_error thrown).
    + now apply Unreadable.
    + unfold POST, POST_try. rewrite Hjson. reflexivity.
  - destruct (truthy_opt (imageBase64 b)) eqn:Htruthy.
    + destruct (imageBase64 b) as [image|] eqn:Himage; [|discriminate].
      cbn [truthy_opt] in Htruthy. apply truthy_nonempty in Htruthy.
      destruct (Z_le_gt_dec (base64_length image) (20 * 1024 * 1024))
        as [Hfits|Hbig].
      * rewrite (POST_forwarded base64_length create req b image
                   Hjson Himage Htruthy Hfits).
        destruct (create (create_params image (question b)))
          as [thrown|completion] eqn:Hcreate.
        { replace (try_catch _ _)
            with (UpstreamCall (create_params image (question b))
                    :: fst (on_error thrown), snd (on_error thrown)).
          - apply (Failed _ _ _ b image thrown); auto.
          - run_handler. rewrite Hcreate. reflexivity. }
        destruct (Completion.choices completion) as [|choice rest] eqn:Hch.
        { replace (try_catch _ _)
            with (UpstreamCall (create_params image (question b))
                    :: fst (on_error
                              (JsError "Cannot read properties of undefined (reading 'message')")),
                  snd (on_error
                         (JsError "Cannot read properties of undefined (reading 'message')"))).
          - apply (Failed _ _ _ b image); auto. right.
            exists completion. split; [exact Hcreate | now constructor].
          - run_handler. rewrite Hcreate. unfold first_choice_content.
            rewrite Hch. reflexivity. }
        destruct (Completion.content (Completion.message choice))
          as [[|c text]|] eqn:Hcontent.
        { replace (try_catch _ _)
            with (UpstreamCall (create_params image (question b))
                    :: fst (on_error (JsError "No response content from OpenAI")),
                  snd (on_error (JsError "No response content from OpenAI"))).
          - apply (Failed _ _ _ b image); auto. right.
            exists completion. split; [exact Hcreate|].
            apply (NoContent _ choice rest Hch). now rewrite Hcontent.
          - run_handler. rewrite Hcreate. unfold first_choice_content.
            rewrite Hch, Hcontent. reflexivity. }
        { replace (try_catch _ _)
            with ([UpstreamCall (create_params image (question b))],
                  json_result (String c text)).
          - apply (Succeeded _ _ _ b image completion choice rest); auto.
            discriminate.
          - run_handler. rewrite Hcreate. unfold first_choice_content.
            rewrite Hch, Hcontent. reflexivity. }
        { replace (try_catch _ _)
            with (UpstreamCall (create_params image (question b))
                    :: fst (on_error (JsError "No response content from OpenAI")),
                  snd (on_error (JsError "No response content from OpenAI"))).
          - apply (Failed _ _ _ b image); auto. right.
            exists completion. split; [exact Hcreate|].
            apply (NoContent _ choice rest Hch). now rewrite Hcontent.
          - run_handler. rewrite Hcreate. unfold first_choice_content.
            rewrite Hch, Hcontent. reflexivity. }
      * rewrite (POST_oversized base64_length create req b Hjson image
                   Himage Htruthy); [|lia].
        apply (Oversized _ _ _ b image); auto. lia.
    + rewrite (POST_missing base64_length create req b Hjson Htruthy).
      now apply (Missing _ _ _ b).
Qed.

(** The catch block answers 400, 401, 429 or 500, with an error text and no
    result. *)
Lemma on_error_answer (thrown : Thrown) :
  exists code text,
    snd (on_error thrown) = json_error text code
    /\ (code = 400 \/ code = 401 \/ code = 429 \/ code = 500)%Z.
Proof.
  destruct thrown as [message|]; cbn [on_error snd].
  - destruct (includes message "maximum context length");
      [eexists; eexists; split; [reflexivity | tauto]|].
    destruct (includes message "invalid_api_key");
      [eexists; eexists; split; [reflexivity | tauto]|].
    destruct (includes message "rate_limit_exceeded");
      eexists; eexists; (split; [reflexivity | tauto]).
  - eexists; eexists; split; [reflexivity | tauto].
Qed.

Lemma on_error_not_200 (thrown : Thrown) :
  status (snd (on_error thrown)) <> 200%Z.
Proof.
  destruct (on_error_answer thrown) as (code & text & -> & Hcode).
  cbn. lia.
Qed.

(** X1. Whatever the request, the decoder and the completion API, the
    answer has status 200, 400, 401, 429 or 500; with 200 its body is a
    non-empty [result] and no [error], with any other status it is an
    [error] and no [result]. *)
Theorem POST_answer_shape
  (base64_length : string -> Z)
  (create : CreateParams -> Thrown + Completion.t) (req : Request) :
  (status (response (POST base64_length create req)) = 200%Z
   /\ exists X,
        X <> ""
        /\ body (response (POST base64_length create req))
           = {| result := Some X; error := None |})
  \/ ((status (response (POST base64_length create req)) = 400%Z
       \/ status (response (POST base64_length create req)) = 401%Z
       \/ status (response (POST base64_length create req)) = 429%Z
       \/ status (response (POST base64_length create req)) = 500%Z)
      /\ exists text,
           body (response (POST base64_length create req))
           = {| result := None; error := Some text |}).
Proof.
  pose proof (POST_answered base64_length create req) as H.
  remember (POST base64_length create req) as run eqn:E. clear E.
  destruct H; unfold response; cbn [snd].
  - right. destruct (on_error_answer thrown) as (code & text & -> & Hcode).
    split; [exact Hcode | now exists text].
  - right. split; [now left | eexists; reflexivity].
  - right. split; [now left | eexists; reflexivity].
  - right. destruct (on_error_answer thrown) as (code & text & -> & Hcode).
    split; [exact Hcode | now exists text].
  - left. split; [reflexivity | now exists X].
Qed.

(** X2. A run calls the completion API at most once, whatever is thrown
    or answered: nothing is retried.  A request that passes both
    validations is forwarded exactly once, with the request of lines 30-51,
    whether the API then rejects, answers without content or answers. *)
Theorem POST_calls_at_most_once
  (base64_length : string -> Z)
  (create : CreateParams -> Thrown + Completion.t) (req : Request) :
  (length (upstream_calls (POST base64_length create req)) <= 1)%nat
  /\ (forall b image,
        Proxy.json req = inr b ->
        imageBase64 b = Some image ->
        image <> "" ->
        (base64_length image <= 20 * 1024 * 1024)%Z ->
        upstream_calls (POST base64_length create req)
        = [ {| model := "gpt-4o-mini";
               messages :=
                 [ {| role := "user";
                      content :=
                        [ TextPart (question b);
                          ImageUrlPart ("data:image/jpeg;base64," ++ image)
                                       "auto" ] |} ];
               max_tokens := 300 |} ]).
Proof.
  split.
  - pose proof (POST_answered base64_length create req) as H.
    remember (POST base64_length create req) as run eqn:E. clear E.
    destruct H; unfold upstream_calls;
      cbn [fst on_error flat_map app length]; lia.
  - intros b image Hjson Himage Hne Hfits.
    apply (POST_calls_once base64_length create req b image
             Hjson Himage Hne Hfits).
Qed.

Lemma POST_calls_at_most_once_witness :
  upstream_calls
    (POST node_base64_length
       (Sample.rejecting (JsError "429 rate_limit_exceeded: slow down"))
       Sample.request)
  = [ create_params "AAAA" (Some "What is in this image?") ].
Proof.
  apply (proj2 (POST_calls_at_most_once node_base64_length
                  (Sample.rejecting
                     (JsError "429 rate_limit_exceeded: slow down"))
                  Sample.request)
           {| imageBase64 := Some "AAAA";
              question := Some "What is in this image?" |}
           "AAAA" eq_refl eq_refl).
  - discriminate.
  - vm_compute. discriminate.
Defined.

(** X3. An answer with status 200 is only given for a validated request
    that the completion API answered with a first choice whose content is a
    non-empty string, and that string is the [result]. *)
Theorem POST_200_only_from_content
  (base64_length : string -> Z)
  (create : CreateParams -> Thrown + Completion.t) (req : Request) :
  status (response (POST base64_length create req)) = 200%Z ->
  exists b image completion choice rest X,
    Proxy.json req = inr b
    /\ imageBase64 b = Some image
    /\ image <> ""
    /\ (base64_length image <= 20 * 1024 * 1024)%Z
    /\ create (create_params image (question b)) = inr completion
    /\ Completion.choices completion = choice :: rest
    /\ Completion.content (Completion.message choice) = Some X
    /\ X <> ""
    /\ POST base64_length create req
       = ([UpstreamCall (create_params image (question b))],
          {| status := 200; body := {| result := Some X; error := None |} |}).
Proof.
  pose proof (POST_answered base64_length create req) as H.
  remember (POST base64_length create req) as run eqn:E. clear E.
  destruct H; unfold response; cbn [snd]; intros Hstatus;
    try (now apply on_error_not_200 in Hstatus);
    try discriminate Hstatus.
  exists b, image, completion, choice, rest, X. repeat split; assumption.
Qed.

Lemma POST_200_only_from_content_witness :
  exists b image completion choice rest X,
    Proxy.json Sample.request = inr b
    /\ imageBase64 b = Some image
    /\ image <> ""
    /\ (node_base64_length image <= 20 * 1024 * 1024)%Z
    /\ Sample.answering (Some "A cat") (create_params image (question b))
       = inr completion
    /\ Completion.choices completion = choice :: rest
    /\ Completion.content (Completion.message choice) = Some X
    /\ X <> ""
    /\ POST node_base64_length (Sample.answering (Some "A cat"))
         Sample.request
       = ([UpstreamCall (create_params image (question b))],
          {| status := 200; body := {| result := Some X; error := None |} |}).
Proof.
  apply (POST_200_only_from_content node_base64_length
           (Sample.answering (Some "A cat")) Sample.request).
  reflexivity.
Defined.

(** X4. When reading the body throws, the completion API is not called,
    the thrown value is logged once, and the catch block answers as for an
    upstream error: an Error with none of the three substrings gives 500
    with its own message, a value that is no Error gives 500 with the fixed
    text, and no status but 400, 401, 429 and 500 is possible. *)
Theorem POST_unreadable_body
  (base64_length : string -> Z)
  (create : CreateParams -> Thrown + Completion.t)
  (req : Request) (thrown : Thrown) :
  Proxy.json req = inl thrown ->
  upstream_calls (POST base64_length create req) = []
  /\ fst (POST base64_length create req)
     = [ConsoleError "Error in vision analysis:" thrown]
  /\ (forall message,
        thrown = JsError message ->
        ~ contains message "maximum context length" ->
        ~ contains message "invalid_api_key" ->
        ~ contains message "rate_limit_exceeded" ->
        response (POST base64_length create req) = json_error message 500)
  /\ (forall message,
        thrown = JsError message ->
        ~ contains message "maximum context length" ->
        ~ contains message "invalid_api_key" ->
        contains message "rate_limit_exceeded" ->
        response (POST base64_length create req)
        = json_error "Rate limit exceeded" 429)
  /\ (thrown = NonError ->
      response (POST base64_length create req)
      = json_error "Failed to analyze the image" 500).
Proof.
  intros Hjson.
  assert (E : POST base64_length create req = on_error thrown)
    by (unfold POST, POST_try; rewrite Hjson; reflexivity).
  rewrite E. repeat split; intros; subst thrown; unfold response;
    cbn [on_error snd fst];
    repeat match goal with
           | H : contains _ _ |- _ => apply includes_contains in H; rewrite H
           | H : ~ contains _ _ |- _ => apply includes_false in H; rewrite H
           end; reflexivity.
Qed.

Lemma POST_unreadable_body_witness :
  upstream_calls
    (POST node_base64_length (Sample.answering (Some "A cat"))
       {| Proxy.json := inl (JsError "Unexpected end of JSON input") |})
  = []
  /\ response
       (POST node_base64_length (Sample.answering (Some "A cat"))
          {| Proxy.json := inl (JsError "Unexpected end of JSON input") |})
     = json_error "Unexpected end of JSON input" 500.
Proof.
  pose proof (POST_unreadable_body node_base64_length
                (Sample.answering (Some "A cat"))
                {| Proxy.json := inl (JsError "Unexpected end of JSON input") |}
                (JsError "Unexpected end of JSON input") eq_refl)
    as (Hcalls & _ & Hplain & _).
  split; [exact Hcalls|].
  apply (Hplain "Unexpected end of JSON input" eq_refl);
    apply not_contains_by_evaluation; reflexivity.
Defined.

(** X5. An [imageBase64] that is the empty string is answered like a
    missing one, 400 with "Image data not provided", before it is decoded
    and without a call to the completion API. *)
Theorem POST_empty_image_is_missing
  (base64_length : string -> Z)
  (create : CreateParams -> Thrown + Completion.t)
  (req : Request) (b : VisionRequest) :
  Proxy.json req = inr b ->
  imageBase64 b = Some "" ->
  POST base64_length create req
  = ([], {| status := 400;
            body := {| result := None;
                       error := Some "Image data not provided" |} |}).
Proof.
  intros Hjson Himage.
  apply (POST_missing base64_length create req b Hjson).
  now rewrite Himage.
Qed.

Lemma POST_empty_image_is_missing_witness :
  POST node_base64_length (Sample.answering (Some "A cat"))
    {| Proxy.json := inr {| imageBase64 := Some ""; question := None |} |}
  = ([], json_error "Image data not provided" 400).
Proof.
  apply (POST_empty_image_is_missing node_base64_length
           (Sample.answering (Some "A cat"))
           {| Proxy.json :=
                inr {| imageBase64 := Some ""; question := None |} |}
           {| imageBase64 := Some ""; question := None |});
    reflexivity.
Defined.

Lemma on_error_origin (thrown : Thrown) :
  (status (snd (on_error thrown)) = 401%Z ->
   exists message,
     thrown = JsError message
     /\ ~ contains message "maximum context length"
     /\ contains message "invalid_api_key"
     /\ snd (on_error thrown) = json_error "Invalid API key" 401)
  /\ (status (snd (on_error thrown)) = 429%Z ->
      exists message,
        thrown = JsError message
        /\ ~ contains message "maximum context length"
        /\ ~ contains message "invalid_api_key"
        /\ contains message "rate_limit_exceeded"
        /\ snd (on_error thrown) = json_error "Rate limit exceeded" 429).
Proof.
  destruct thrown as [message|]; cbn [on_error snd];
    [|split; discriminate].
  destruct (includes message "maximum context length") eqn:E1;
    [split; discriminate|].
  destruct (includes message "invalid_api_key") eqn:E2.
  - split; [|discriminate]. intros _. exists message.
    repeat split; try (now apply includes_contains).
    now apply not_contains_by_evaluation.
  - destruct (includes message "rate_limit_exceeded") eqn:E3;
      [|split; discriminate].
    split; [discriminate|]. intros _. exists message.
    repeat split; try (now apply includes_contains);
      now apply not_contains_by_evaluation.
Qed.

(** X6. The statuses 401 and 429 have one origin each: an Error was thrown
    and logged whose message holds "invalid_api_key" (for 401) or
    "rate_limit_exceeded" and not "invalid_api_key" (for 429), and in both
    cases not "maximum context length".  The validations never answer
    them, and the error text is then the fixed one. *)
Theorem POST_401_429_origin
  (base64_length : string -> Z)
  (create : CreateParams -> Thrown + Completion.t) (req : Request) :
  (status (response (POST base64_length create req)) = 401%Z ->
   exists message,
     In (ConsoleError "Error in vision analysis:" (JsError message))
        (fst (POST base64_length create req))
     /\ ~ contains message "maximum context length"
     /\ contains message "invalid_api_key"
     /\ response (POST base64_length create req)
        = json_error "Invalid API key" 401)
  /\ (status (response (POST base64_length create req)) = 429%Z ->
      exists message,
        In (ConsoleError "Error in vision analysis:" (JsError message))
           (fst (POST base64_length create req))
        /\ ~ contains message "maximum context length"
        /\ ~ contains message "invalid_api_key"
        /\ contains message "rate_limit_exceeded"
        /\ response (POST base64_length create req)
           = json_error "Rate limit exceeded" 429).
Proof.
  pose proof (POST_answered base64_length create req) as H.
  remember (POST base64_length create req) as run eqn:E. clear E.
  destruct H; unfold response; cbn [snd fst];
    try (split; discriminate).
  - destruct (on_error_origin thrown) as [H401 H429]. split; intros Hs.
    + destruct (H401 Hs) as (message & -> & ? & ? & ?).
      exists message. repeat split; try assumption. now left.
    + destruct (H429 Hs) as (message & -> & ? & ? & ? & ?).
      exists message. repeat split; try assumption. now left.
  - destruct (on_error_origin thrown) as [H401 H429]. split; intros Hs.
    + destruct (H401 Hs) as (message & -> & ? & ? & ?).
      exists message. repeat split; try assumption. right. now left.
    + destruct (H429 Hs) as (message & -> & ? & ? & ? & ?).
      exists message. repeat split; try assumption. right. now left.
Qed.

Lemma POST_401_429_origin_witness :
  exists message,
    In (ConsoleError "Error in vision analysis:" (JsError message))
       (fst (POST node_base64_length
               (Sample.rejecting (JsError "401 invalid_api_key"))
               Sample.request))
    /\ ~ contains message "maximum context length"
    /\ contains message "invalid_api_key"
    /\ response
         (POST node_base64_length
            (Sample.rejecting (JsError "401 invalid_api_key"))
            Sample.request)
       = json_error "Invalid API key" 401.
Proof.
  apply (proj1 (POST_401_429_origin node_base64_length
                  (Sample.rejecting (JsError "401 invalid_api_key"))
                  Sample.request)).
  reflexivity.
Defined.

(** * The component and the route together *)

Lemma on_error_not_missing (thrown : Thrown) :
  snd (on_error thrown) <> json_error "Image data not provided" 400.
Proof.
  destruct thrown as [message|]; cbn [on_error snd]; [|discriminate].
  destruct (includes message "maximum context length"); [discriminate|].
  destruct (includes message "invalid_api_key"); [discriminate|].
  destruct (includes message "rate_limit_exceeded"); discriminate.
Qed.

(** X7. The only request the reader's callback sends goes to
    /api/assistants/vision with a non-empty [imageBase64] and a non-empty
    [question] (the input, or the default when the input is empty); so the
    route never answers it with "Image data not provided". *)
Theorem component_request_passes_presence_check
  (render st : Chat.State) (read : option string)
  (url : string) (sent : VisionRequest) :
  In (Chat.Fetch url sent)
     (Chat.effects_of (Chat.submit_onloadend render read st)) ->
  url = "/api/assistants/vision"
  /\ (exists payload,
        imageBase64 sent = Some payload /\ payload <> "")
  /\ question sent
     = Some (if truthy (Chat.userInput render) then Chat.userInput render
             else "What is in this image?")
  /\ (exists asked, question sent = Some asked /\ asked <> "")
  /\ forall base64_length create,
       response (POST base64_length create {| Proxy.json := inr sent |})
       <> json_error "Image data not provided" 400.
Proof.
  unfold Chat.submit_onloadend.
  remember (match read with
            | Some dataUrl => nth_error (split ","%char dataUrl) 1
            | None => None
            end) as base64Image eqn:E. clear E.
  destruct base64Image as [payload|]; [|intros []].
  destruct (truthy payload) eqn:Htruthy; cbn [truthy_opt negb];
    rewrite Htruthy; [|intros []].
  unfold Chat.effects_of, Chat.bind, Chat.setMessages, Chat.update,
    Chat.perform, Chat.ret. cbn [fst snd app negb].
  intros [Hfetch|[]]. injection Hfetch as <- <-.
  apply truthy_nonempty in Htruthy.
  split; [reflexivity|].
  split; [exists payload; split; [reflexivity | exact Htruthy]|].
  split; [reflexivity|]. split.
  - eexists. split; [reflexivity|]. unfold or_else.
    destruct (Chat.userInput render); cbn; discriminate.
  - intros base64_length create.
    pose proof (POST_answered base64_length create
                  {| Proxy.json :=
                       inr {| imageBase64 := Some payload;
                              question :=
                                Some (or_else (Chat.userInput render)
                                        "What is in this image?") |} |}) as H.
    unfold response.
    remember (POST base64_length create _) as run eqn:E. clear E.
    destruct H as [thrown Hjson|b Hjson Hfalsy| | |]; cbn [snd];
      try discriminate; try apply on_error_not_missing.
    cbn in Hjson. injection Hjson as <-. cbn in Hfalsy.
    destruct payload; [now destruct Htruthy | discriminate].
Qed.

Lemma component_request_passes_presence_check_witness :
  In (Chat.Fetch "/api/assistants/vision"
        {| imageBase64 := Some "AAAA";
           question := Some "What is in this image?" |})
     (Chat.effects_of
        (Chat.submit_onloadend Chat.initial (Some Sample.png_url)
           Chat.initial))
  /\ response
       (POST node_base64_length (Sample.answering (Some "A cat"))
          {| Proxy.json :=
               inr {| imageBase64 := Some "AAAA";
                      question := Some "What is in this image?" |} |})
     <> json_error "Image data not provided" 400.
Proof.
  assert (Hsent :
            In (Chat.Fetch "/api/assistants/vision"
                  {| imageBase64 := Some "AAAA";
                     question := Some "What is in this image?" |})
               (Chat.effects_of
                  (Chat.submit_onloadend Chat.initial (Some Sample.png_url)
                     Chat.initial)))
    by (left; reflexivity).
  split; [exact Hsent|].
  apply (component_request_passes_presence_check Chat.initial Chat.initial
           (Some Sample.png_url) _ _ Hsent).
Defined.

(** X8. Every answer of the route whose status is not 200 makes the
    component's callback throw an Error whose message is the route's error
    text, or "Failed to analyze image" when that text is empty; the
    callback changes no state and starts nothing before it throws. *)
Theorem refusal_reaches_component_as_throw
  (base64_length : string -> Z)
  (create : CreateParams -> Thrown + Completion.t)
  (req : Request) (st : Chat.State) :
  status (response (POST base64_length create req)) <> 200%Z ->
  exists text,
    Wire.error (body (response (POST base64_length create req))) = Some text
    /\ Chat.submit_onresponse
         (deliver (response (POST base64_length create req))) st
       = (st, [],
          inl (JsError (if truthy text then text
                        else "Failed to analyze image"))).
Proof.
  intros Hstatus.
  destruct (POST_answer_shape base64_length create req)
    as [[H200 _]|[Hcode (text & Hbody)]]; [contradiction|].
  exists text. rewrite Hbody. split; [reflexivity|].
  unfold Chat.submit_onresponse, deliver, Chat.ok.
  cbn [Chat.status Chat.json]. rewrite Hbody.
  destruct Hcode as [-> |[-> |[-> | ->]]]; reflexivity.
Qed.

Lemma refusal_reaches_component_as_throw_witness :
  exists text,
    Wire.error
      (body (response
               (POST node_base64_length (Sample.rejecting (JsError ""))
                  Sample.request)))
    = Some text
    /\ Chat.submit_onresponse
         (deliver (response
                     (POST node_base64_length (Sample.rejecting (JsError ""))
                        Sample.request)))
         Chat.initial
       = (Chat.initial, [],
          inl (JsError (if truthy text then text
                        else "Failed to analyze image"))).
Proof.
  apply (refusal_reaches_component_as_throw node_base64_length
           (Sample.rejecting (JsError "")) Sample.request Chat.initial).
  discriminate.
Defined.

(** * Further properties of the component *)

Import Wire Chat Reach.

Lemma Tame_refl (st : State) : Tame st st.
Proof.
  repeat split; auto. exists []. now rewrite app_nil_r.
Qed.

Lemma Tame_trans (a b c : State) : Tame a b -> Tame b c -> Tame a c.
Proof.
  intros (L1 & E1 & s1 & M1) (L2 & E2 & s2 & M2). repeat split; auto.
  exists (s1 ++ s2)%list. now rewrite M2, M1, app_assoc.
Qed.

Ltac tame :=
  unfold Tame, selection_errors; run_chat;
  repeat split; intros;
  cbn [userInput messages isLoading selectedImage imagePreview Chat.error In]
    in *;
  try assumption; try reflexivity; try tauto;
  first [ exists []; now rewrite app_nil_r | eexists; reflexivity ].

Lemma handleImageSelect_tame (file : option File) (st : State) :
  Tame st (state_of (handleImageSelect file st)).
Proof.
  unfold handleImageSelect. destruct file as [file|]; [|apply Tame_refl].
  destruct (size file >? 20 * 1024 * 1024)%Z; [tame|].
  destruct (array_includes _ (type file)); tame.
Qed.

Lemma handleSubmit_tame (render st : State) :
  Tame st (state_of (handleSubmit render st)).
Proof.
  unfold handleSubmit.
  destruct (truthy (trim (userInput render))),
    (selectedImage render) as [file|]; tame.
Qed.

Lemma submit_onloadend_tame (render st : State) (read : option string) :
  Tame st (state_of (submit_onloadend render read st)).
Proof.
  unfold submit_onloadend.
  destruct (truthy_opt _); tame.
Qed.

Lemma submit_onresponse_tame (response : Response) (st : State) :
  Tame st (state_of (submit_onresponse response st)).
Proof.
  unfold submit_onresponse.
  destruct (ok response), (json response) as [thrown|data]; tame.
Qed.

Lemma step_tame (w : World) (ev : Event) : Tame (ui w) (ui (step w ev)).
Proof.
  destruct ev as [file|value| | |i read|i response]; unfold step.
  - destruct (inputs_disabled (ui w)); [apply Tame_refl|].
    apply handleImageSelect_tame.
  - destruct (inputs_disabled (ui w)); [apply Tame_refl | tame].
  - destruct (truthy_opt (imagePreview (ui w))); [tame | apply Tame_refl].
  - destruct (submit_disabled (ui w)); [apply Tame_refl|].
    apply handleSubmit_tame.
  - destruct (nth_error (reads w) i) as [[file [|render]]|];
      [tame | | apply Tame_refl].
    destruct read as [dataUrl|]; apply submit_onloadend_tame.
  - destruct (nth_error (in_flight w) i); [|apply Tame_refl].
    apply submit_onresponse_tame.
Qed.

Lemma run_tame (w : World) (events : list Event) :
  Tame (ui w) (ui (run w events)).
Proof.
  revert w. induction events as [|ev events IH]; intros w; cbn [run fold_left].
  - apply Tame_refl.
  - apply (Tame_trans _ (ui (step w ev))); [apply step_tame | apply IH].
Qed.

(** X9. In no state the component reaches from its first render is the
    loading flag up between two events: the inputs are never disabled and
    the button never reads "Processing...", whatever is read, sent or
    answered meanwhile. *)
Theorem loading_flag_never_observed (events : list Event) :
  isLoading (ui (run start events)) = false
  /\ inputs_disabled (ui (run start events)) = false
  /\ View.submit_label (ui (run start events)) = "Send".
Proof.
  destruct (run_tame start events) as (Hloading & _).
  specialize (Hloading eq_refl).
  unfold inputs_disabled, View.submit_label. now rewrite Hloading.
Qed.

(** X10. In every state the component reaches from its first render the
    error state is empty or one of the two texts of [handleImageSelect]:
    no text of the route, of a failed read or of a failed request is ever
    put there. *)
Theorem error_state_only_from_selection (events : list Event) :
  Chat.error (ui (run start events)) = ""
  \/ Chat.error (ui (run start events)) = "Image size must be less than 20MB"
  \/ Chat.error (ui (run start events))
     = "Only JPEG, PNG, WEBP, and non-animated GIF files are supported".
Proof.
  destruct (run_tame start events) as (_ & Herror & _).
  destruct Herror as [H|[H|[H|[]]]]; [now left | auto..].
Qed.

(** X11. The transcript is append-only: whatever the events, the messages
    of a state are a prefix of the messages of every later state. *)
Theorem transcript_append_only (w : World) (events : list Event) :
  exists suffix,
    messages (ui (run w events)) = (messages (ui w) ++ suffix)%list.
Proof. now destruct (run_tame w events) as (_ & _ & H). Qed.

(** X12. Submitting with a blank input (empty or white space only) and no
    image selected changes no state: nothing is appended, the input is not
    cleared, no read or request is started; only the default of the event
    is prevented. *)
Theorem handleSubmit_blank_is_noop (st : State) :
  trim (userInput st) = "" ->
  selectedImage st = None ->
  handleSubmit st st = (st, [PreventDefault], inr tt).
Proof.
  intros Hblank Hnone. unfold handleSubmit. rewrite Hblank, Hnone.
  reflexivity.
Qed.

Lemma handleSubmit_blank_is_noop_witness :
  handleSubmit
    {| userInput := "   "; messages := []; isLoading := false;
       selectedImage := None; imagePreview := Some "";
       Chat.error := "Image size must be less than 20MB" |}
    {| userInput := "   "; messages := []; isLoading := false;
       selectedImage := None; imagePreview := Some "";
       Chat.error := "Image size must be less than 20MB" |}
  = ( {| userInput := "   "; messages := []; isLoading := false;
         selectedImage := None; imagePreview := Some "";
         Chat.error := "Image size must be less than 20MB" |},
      [PreventDefault], inr tt ).
Proof.
  apply (handleSubmit_blank_is_noop
           {| userInput := "   "; messages := []; isLoading := false;
              selectedImage := None; imagePreview := Some "";
              Chat.error := "Image size must be less than 20MB" |});
    reflexivity.
Defined.

(** X13. Submitting a non-blank text with no image selected appends one
    user message whose text is the input as typed (not trimmed) and has no
    image, empties the input and the error, and starts neither a read nor
    a request: no answer will follow. *)
Theorem handleSubmit_text_only (st : State) :
  trim (userInput st) <> "" ->
  selectedImage st = None ->
  handleSubmit st st
  = ( {| userInput := "";
         messages :=
           (messages st ++ [ {| role := user;
                                text := Some (userInput st);
                                imageUrl := None |} ])%list;
         isLoading := false;
         selectedImage := None;
         imagePreview := imagePreview st;
         Chat.error := "" |},
      [PreventDefault; ScrollToBottom], inr tt ).
Proof.
  intros Htext Hnone. apply truthy_nonempty in Htext.
  rewrite handleSubmit_run; rewrite Htext, Hnone; reflexivity.
Qed.

Lemma handleSubmit_text_only_witness :
  handleSubmit
    {| userInput := " hello "; messages := []; isLoading := false;
       selectedImage := None; imagePreview := Some "";
       Chat.error := "Image size must be less than 20MB" |}
    {| userInput := " hello "; messages := []; isLoading := false;
       selectedImage := None; imagePreview := Some "";
       Chat.error := "Image size must be less than 20MB" |}
  = ( {| userInput := "";
         messages := [ {| role := user; text := Some " hello ";
                          imageUrl := None |} ];
         isLoading := false; selectedImage := None;
         imagePreview := Some ""; Chat.error := "" |},
      [PreventDefault; ScrollToBottom], inr tt ).
Proof.
  apply (handleSubmit_text_only
           {| userInput := " hello "; messages := []; isLoading := false;
              selectedImage := None; imagePreview := Some "";
              Chat.error := "Image size must be less than 20MB" |}).
  - discriminate.
  - reflexivity.
Defined.

(** X14. [handleSubmit] never throws and never reaches its catch block:
    whatever the state, it ends normally, logs no error, sends no request
    itself, starts at most one read, leaves the selected image and the
    preview as they were and the loading flag as it was or down. *)
Theorem handleSubmit_never_fails (st : State) :
  outcome_of (handleSubmit st st) = inr tt
  /\ (forall label thrown,
        ~ In (ConsoleError label thrown) (effects_of (handleSubmit st st)))
  /\ started_requests (effects_of (handleSubmit st st)) = []
  /\ (length (started_reads (effects_of (handleSubmit st st))) <= 1)%nat
  /\ selectedImage (state_of (handleSubmit st st)) = selectedImage st
  /\ imagePreview (state_of (handleSubmit st st)) = imagePreview st
  /\ (isLoading (state_of (handleSubmit st st)) = isLoading st
      \/ isLoading (state_of (handleSubmit st st)) = false).
Proof.
  destruct (negb (truthy (trim (userInput st)))
            && negb (is_some (selectedImage st))) eqn:Hguard.
  - unfold handleSubmit. rewrite Hguard. run_chat. repeat split; auto.
    intros label thrown [H|[]]. discriminate H.
  - rewrite (handleSubmit_run st Hguard).
    unfold outcome_of, effects_of, state_of. cbn [fst snd].
    destruct (selectedImage st) as [file|];
      cbn [started_reads started_requests flat_map app length
           selectedImage imagePreview isLoading];
      (repeat split; auto;
       intros label thrown H; cbn in H;
       repeat (destruct H as [H|H]; [discriminate H|]); exact H).
Qed.

(** X15. A file of at most 20 * 1024 * 1024 bytes (the limit included)
    whose type is one of the four allowed becomes the selected image, the
    error is emptied and the read for the preview is started; the preview
    itself stays as it was until that read ends. *)
Theorem handleImageSelect_accepts (file : File) (st : State) :
  (size file <= 20 * 1024 * 1024)%Z ->
  In (type file) ["image/jpeg"; "image/png"; "image/webp"; "image/gif"] ->
  handleImageSelect (Some file) st
  = ( {| userInput := userInput st;
         messages := messages st;
         isLoading := isLoading st;
         selectedImage := Some file;
         imagePreview := imagePreview st;
         Chat.error := "" |},
      [ReadAsDataURL file PreviewReader], inr tt ).
Proof.
  intros Hfits Htype. unfold handleImageSelect.
  destruct (Z.gtb_spec (size file) (20 * 1024 * 1024)); [lia|].
  apply array_includes_In in Htype. rewrite Htype. reflexivity.
Qed.

Lemma handleImageSelect_accepts_witness :
  handleImageSelect
    (Some {| name := "big.gif"; size := 20971520; type := "image/gif" |})
    initial
  = ( {| userInput := ""; messages := []; isLoading := false;
         selectedImage :=
           Some {| name := "big.gif"; size := 20971520;
                   type := "image/gif" |};
         imagePreview := Some ""; Chat.error := "" |},
      [ReadAsDataURL
         {| name := "big.gif"; size := 20971520; type := "image/gif" |}
         PreviewReader],
      inr tt ).
Proof.
  apply (handleImageSelect_accepts
           {| name := "big.gif"; size := 20971520; type := "image/gif" |}
           initial).
  - cbn. lia.
  - cbn. tauto.
Defined.

(** X16. The message that goes with an image shows the preview of the
    render that submitted it, not the file that is sent: when a file is
    selected and submitted before its preview is read, the message carries
    the preview that was there before the selection, while the request
    carries the payload of the new file. *)
Theorem message_shows_preview_of_render
  (st : State) (file : File) (dataUrl payload : string) :
  (size file <= 20 * 1024 * 1024)%Z ->
  In (type file) ["image/jpeg"; "image/png"; "image/webp"; "image/gif"] ->
  nth_error (split ","%char dataUrl) 1 = Some payload ->
  payload <> "" ->
  started_reads
    (effects_of
       (handleSubmit (state_of (handleImageSelect (Some file) st))
          (state_of (handleImageSelect (Some file) st))))
  = [(file, SubmitReader (state_of (handleImageSelect (Some file) st)))]
  /\ (exists earlier,
       messages
         (state_of
            (submit_onloadend
               (state_of (handleImageSelect (Some file) st))
               (Some dataUrl)
               (state_of
                  (handleSubmit
                     (state_of (handleImageSelect (Some file) st))
                     (state_of (handleImageSelect (Some file) st))))))
       = (messages st ++ earlier
          ++ [ {| role := user;
                  text := Some (if truthy (userInput st) then userInput st
                                else "What is in this image?");
                  imageUrl := imagePreview st |} ])%list)
  /\ outcome_of
       (submit_onloadend
          (state_of (handleImageSelect (Some file) st))
          (Some dataUrl)
          (state_of
             (handleSubmit
                (state_of (handleImageSelect (Some file) st))
                (state_of (handleImageSelect (Some file) st)))))
     = inr {| imageBase64 := Some payload;
              question :=
                Some (if truthy (userInput st) then userInput st
                      else "What is in this image?") |}.
Proof.
  intros Hfits Htype Hsplit Hne.
  rewrite (handleImageSelect_accepts file st Hfits Htype).
  cbn [state_of fst].
  rewrite handleSubmit_run;
    [|cbn [selectedImage is_some negb]; apply andb_false_r].
  cbn [effects_of state_of fst snd selectedImage userInput messages
       imagePreview started_reads flat_map app].
  split; [reflexivity|].
  rewrite (submit_onloadend_run _ _ dataUrl payload Hsplit Hne).
  cbn [state_of outcome_of fst snd messages userInput imagePreview].
  split; [|reflexivity].
  destruct (truthy (trim (userInput st))).
  - eexists. rewrite <- app_assoc. reflexivity.
  - exists []. reflexivity.
Qed.

Lemma message_shows_preview_of_render_witness :
  exists earlier,
    messages
      (state_of
         (submit_onloadend
            (state_of (handleImageSelect (Some Sample.png) initial))
            (Some Sample.png_url)
            (state_of
               (handleSubmit
                  (state_of (handleImageSelect (Some Sample.png) initial))
                  (state_of (handleImageSelect (Some Sample.png) initial))))))
    = ([] ++ earlier
       ++ [ {| role := user; text := Some "What is in this image?";
               imageUrl := Some "" |} ])%list.
Proof.
  apply (message_shows_preview_of_render initial Sample.png
           Sample.png_url "AAAA").
  - cbn. lia.
  - cbn. tauto.
  - reflexivity.
  - discriminate.
Defined.

(** X18. A successful answer clears whatever image is selected when it
    arrives, not the one it answers: a file selected while the request was
    in flight is dropped from the state, although the read of its preview
    goes on. *)
Theorem answer_drops_newer_selection
  (w : World) (i : nat) (sent : VisionRequest) (file : File)
  (response : Response) (data : VisionResponse) :
  isLoading (ui w) = false ->
  nth_error (in_flight w) i = Some sent ->
  (size file <= 20 * 1024 * 1024)%Z ->
  In (type file) ["image/jpeg"; "image/png"; "image/webp"; "image/gif"] ->
  ok response = true ->
  json response = inr data ->
  selectedImage (ui (step w (SelectFile (Some file)))) = Some file
  /\ selectedImage
       (ui (run w [SelectFile (Some file); FetchResolves i response]))
     = None
  /\ In (file, PreviewReader)
        (reads (run w [SelectFile (Some file); FetchResolves i response]))
  /\ messages
       (ui (run w [SelectFile (Some file); FetchResolves i response]))
     = (messages (ui w)
        ++ [ {| role := assistant; text := result data;
                imageUrl := None |} ])%list.
Proof.
  intros Hidle Hsent Hfits Htype Hok Hdata.
  assert (Hselect :
            step w (SelectFile (Some file))
            = {| ui := {| userInput := userInput (ui w);
                          messages := messages (ui w);
                          isLoading := isLoading (ui w);
                          selectedImage := Some file;
                          imagePreview := imagePreview (ui w);
                          Chat.error := "" |};
                 reads := (reads w ++ [(file, PreviewReader)])%list;
                 in_flight := in_flight w;
                 unhandled := unhandled w |}).
  { unfold step, inputs_disabled. rewrite Hidle.
    rewrite (handleImageSelect_accepts file (ui w) Hfits Htype).
    unfold settle.
    cbn [state_of effects_of outcome_of fst snd started_reads
         started_requests flat_map app].
    now rewrite ?app_nil_r, ?Hidle. }
  cbn [run fold_left]. rewrite Hselect. split; [reflexivity|].
  unfold step. cbn [in_flight ui]. rewrite Hsent.
  unfold submit_onresponse. rewrite Hok. cbn [negb].
  unfold Chat.lift. rewrite Hdata. run_chat. unfold settle, end_request.
  cbn [ui reads fst snd state_of effects_of started_reads flat_map
       selectedImage messages].
  repeat split; try reflexivity.
  rewrite app_nil_r. apply in_or_app. right. now left.
Qed.

Lemma answer_drops_newer_selection_witness :
  selectedImage
    (ui (step (run start (Sample.attach ++ Sample.submit_and_read))
           (SelectFile
              (Some {| name := "dog.webp"; size := 5;
                       type := "image/webp" |}))))
  = Some {| name := "dog.webp"; size := 5; type := "image/webp" |}
  /\ selectedImage
       (ui (run (run start (Sample.attach ++ Sample.submit_and_read))
              [ SelectFile
                  (Some {| name := "dog.webp"; size := 5;
                           type := "image/webp" |});
                FetchResolves 0 Sample.success ]))
     = None
  /\ In ({| name := "dog.webp"; size := 5; type := "image/webp" |},
         PreviewReader)
        (reads
           (run (run start (Sample.attach ++ Sample.submit_and_read))
              [ SelectFile
                  (Some {| name := "dog.webp"; size := 5;
                           type := "image/webp" |});
                FetchResolves 0 Sample.success ]))
  /\ messages
       (ui (run (run start (Sample.attach ++ Sample.submit_and_read))
              [ SelectFile
                  (Some {| name := "dog.webp"; size := 5;
                           type := "image/webp" |});
                FetchResolves 0 Sample.success ]))
     = (messages (ui (run start (Sample.attach ++ Sample.submit_and_read)))
        ++ [ {| role := assistant; text := Some "A cat";
                imageUrl := None |} ])%list.
Proof.
  apply (answer_drops_newer_selection
           (run start (Sample.attach ++ Sample.submit_and_read)) 0
           {| imageBase64 := Some "AAAA";
              question := Some "What is in this image?" |}
           {| name := "dog.webp"; size := 5; type := "image/webp" |}
           Sample.success
           {| result := Some "A cat"; Wire.error := None |}).
  - reflexivity.
  - reflexivity.
  - cbn. lia.
  - cbn. tauto.
  - reflexivity.
  - reflexivity.
Defined.
